(** * Windows-Downdate: the downgrade-crafting core

    A shallow embedding of [windows_downdate.py] and
    [windows_downdate/manifest_utils.py].

    Conventions of the embedding.
    - A Python [str] is the [string] of its UTF-8 bytes: equality,
      concatenation and the search for an ASCII character are those of the
      text.  [lower] and [upper] are the ASCII case mappings, which is what
      [str.lower] and [str.upper] are on ASCII text; [str.lower] on any
      text is the collaborator [str_lower].  The keys of the variable
      table are ASCII and hold no [k], the one ASCII letter a character
      outside ASCII lower-cases to, so a name reaches a key exactly when
      it is ASCII and its [lower] form is the key.
    - A Python [bytes] is a [list byte].
    - A raised exception is the [Raise] outcome; a call that never returns
      (unbounded recursion) exhausts every amount of fuel.
    - An instance attribute that starts as [None] is an [option]; the
      truthiness test [not x] is written out for each type. *)

From Stdlib Require Import List String Ascii Strings.Byte Bool Arith NArith ZArith Lia.
From Equations Require Import Equations.
From Equations.Prop Require Import Logic.
Import ListNotations.
Open Scope string_scope.

Set Implicit Arguments.

(* ===================================================================== *)
(** * Python values, exceptions and outcomes *)
(* ===================================================================== *)

Definition bytes := list byte.

(** The exceptions the two source files raise or let through. *)
Inductive exn : Type :=
| FileNotFoundError (msg : string)
| XmlElementAttributeNotFound
| AttributeError (attr : string)
| NotImplementedError (msg : string)
| Exception_ (msg : string)
| IndexError
| TypeError
| UnresolvableSourceError (path : string)
| DeltaError
| ParseError
| SystemExit (code : nat).

(** The result of code that either returns or raises. *)
Inductive result (A : Type) : Type :=
| Ok (a : A)
| Raise (e : exn).
Arguments Ok {A} a.
Arguments Raise {A} e.

Definition rbind {A B} (r : result A) (k : A -> result B) : result B :=
  match r with
  | Ok a => k a
  | Raise e => Raise e
  end.

Declare Scope result_scope.
Delimit Scope result_scope with result.
Notation "x <- e ;; k" := (rbind e (fun x => k))
  (at level 61, e at next level, right associativity) : result_scope.

(* ===================================================================== *)
(** * Strings and bytes *)
(* ===================================================================== *)

(** The ASCII case mappings, byte by byte: A..Z (65..90) and a..z
    (97..122) move to each other; the bytes of a character outside ASCII,
    which are all above 127, stay. *)
Definition lower_ascii (c : ascii) : ascii :=
  let n := nat_of_ascii c in
  if ((65 <=? n) && (n <=? 90))%nat then ascii_of_nat (n + 32) else c.

Definition upper_ascii (c : ascii) : ascii :=
  let n := nat_of_ascii c in
  if ((97 <=? n) && (n <=? 122))%nat then ascii_of_nat (n - 32) else c.

Fixpoint lower (s : string) : string :=
  match s with
  | EmptyString => EmptyString
  | String c s' => String (lower_ascii c) (lower s')
  end.

Fixpoint upper (s : string) : string :=
  match s with
  | EmptyString => EmptyString
  | String c s' => String (upper_ascii c) (upper s')
  end.

(** [s.isascii()]: every character is below 128. *)
Fixpoint isascii (s : string) : bool :=
  match s with
  | EmptyString => true
  | String c s' => (nat_of_ascii c <? 128)%nat && isascii s'
  end.

(** [buffer.startswith(prefix)] on bytes. *)
Fixpoint startswith (buffer prefix : bytes) : bool :=
  match prefix, buffer with
  | [], _ => true
  | _ :: _, [] => false
  | p :: prefix', b :: buffer' => Byte.eqb b p && startswith buffer' prefix'
  end.

(** Truthiness of the values the lazy accessors test with [not]. *)
Definition truthy_bytes (o : option bytes) : bool :=
  match o with
  | None | Some [] => false
  | Some (_ :: _) => true
  end.

Definition truthy_list {A} (o : option (list A)) : bool :=
  match o with
  | None | Some [] => false
  | Some (_ :: _) => true
  end.

(** [a == b] on bytes. *)
Definition same_bytes (a b : bytes) : bool :=
  if list_eq_dec Byte.byte_eq_dec a b then true else false.

(** [dict.get(key, default)] on a dict written as its items in order. *)
Fixpoint dict_get {V} (d : list (string * V)) (key : string) : option V :=
  match d with
  | [] => None
  | (k, v) :: d' => if String.eqb k key then Some v else dict_get d' key
  end.

(* ===================================================================== *)
(** * XML documents (xml.etree.ElementTree) *)
(* ===================================================================== *)

(** An element: its tag, its attributes in document order, its children
    in document order. *)
#[warnings="-register-all"]
Inductive Element : Type :=
| Elem (tag : string) (attrib : list (string * string)) (children : list Element).

Definition tag (e : Element) : string := let (t, _, _) := e in t.
Definition attrib (e : Element) : list (string * string) := let (_, a, _) := e in a.
Definition children (e : Element) : list Element := let (_, _, c) := e in c.

(** Modelled from the spec: [xml_utils.find_child_elements_by_match]
    (xml_utils.py is not under src/).  The match strings of the two source
    files are paths of tags below the document root; a path is written as
    the list of its tags, and the result keeps document order. *)
Fixpoint find_child_elements_by_match (e : Element) (path : list string) : list Element :=
  match path with
  | [] => [e]
  | t :: path' =>
      flat_map (fun c => find_child_elements_by_match c path')
               (filter (fun c => String.eqb (tag c) t) (children e))
  end.

(** Modelled from the spec: [xml_utils.get_element_attribute] (not under
    src/): the attribute's value, or [XmlElementAttributeNotFound] when the
    element does not carry it. *)
Definition get_element_attribute (e : Element) (name : string) : result string :=
  match dict_get (attrib e) name with
  | Some v => Ok v
  | None => Raise XmlElementAttributeNotFound
  end.

(** Modelled from the spec: [xml_utils.create_element] (not under src/). *)
Definition create_element (t : string) (attributes : list (string * string)) : Element :=
  Elem t attributes [].

(** Modelled from the spec: [xml_utils.append_child_element] (not under
    src/); the parent is updated in place, which [append_to_first] below
    carries to the document that holds it. *)
Definition append_child_element (parent child : Element) : Element :=
  Elem (tag parent) (attrib parent) (children parent ++ [child])%list.

(* ===================================================================== *)
(** * manifest_utils.py: class Manifest *)
(* ===================================================================== *)

Module manifest_utils.

Definition DCM_HEADER : bytes := [x44; x43; x4d; x01].

Definition PACKAGE_VARIABLES : list (string * string) :=
  [ ("runtime.programfilesx86", "%ProgramFiles(x86)%");
    ("runtime.help", "%SystemRoot%\Help");
    ("runtime.bootdrive", "%SystemDrive%");
    ("runtime.systemroot", "%SystemRoot%");
    ("runtime.inf", "%SystemRoot%\INF");
    ("runtime.commonfiles", "%CommonProgramFiles%");
    ("runtime.windows", "%SystemRoot%");
    ("runtime.public", "%Public%");
    ("runtime.system", "%SystemRoot%\System");
    ("runtime.programdata", "%ProgramData%");
    ("runtime.wbem", "%SystemRoot%\System32\wbem");
    ("runtime.startmenu", "%ProgramData%\Microsoft\Windows\Start Menu");
    ("runtime.fonts", "%SystemRoot%\Fonts");
    ("runtime.windir", "%SystemRoot%");
    ("runtime.system32", "%SystemRoot%\System32");
    ("runtime.programfiles", "%ProgramFiles%");
    ("runtime.drivers", "%SystemRoot%\System32\Drivers") ].

(** ** The pattern [\$\(([^)]+)\)]

    [take_name s] reads [[^)]*\)] at the start of [s]: the characters up
    to the first closing parenthesis, and what follows it. *)
Fixpoint take_name (s : string) : option (string * string) :=
  match s with
  | EmptyString => None
  | String c rest =>
      if Ascii.eqb c ")" then Some (EmptyString, rest)
      else match take_name rest with
           | Some (name, after) => Some (String c name, after)
           | None => None
           end
  end.

(** [match_token s] is the match of the pattern anchored at the start of
    [s]: group 1 and the text after the match.  The class [[^)]+] needs at
    least one character, so [$()] is no match. *)
Definition match_token (s : string) : option (string * string) :=
  match s with
  | String c0 (String c1 rest) =>
      if Ascii.eqb c0 "$" && Ascii.eqb c1 "(" then
        match take_name rest with
        | Some (String c name, after) => Some (String c name, after)
        | _ => None
        end
      else None
  | _ => None
  end.

(** [name] holds no closing parenthesis: it is matched by [[^)]*]. *)
Definition no_close_paren (name : string) : Prop :=
  ~ In ")"%char (list_ascii_of_string name).

(** [s] holds no dollar sign: no token starts inside it. *)
Definition no_dollar (s : string) : Prop :=
  ~ In "$"%char (list_ascii_of_string s).

(** [s] starts with a token [$(name)]: the pattern matches at its start. *)
Definition starts_with_token (s : string) : Prop :=
  exists name after,
    name <> "" /\ no_close_paren name /\ s = "$(" ++ name ++ ")" ++ after.

(** The inner function [replace]: group 0 is [$(] group 1 [)].  The
    lower-cased name is looked up in a table of ASCII keys that hold no
    [k], where [lower] finds what [str.lower] finds. *)
Definition replace (name : string) : string :=
  let variable_name := lower name in
  let full_name := "$(" ++ name ++ ")" in
  match dict_get PACKAGE_VARIABLES variable_name with
  | Some value => value
  | None => full_name
  end.

Lemma take_name_shorter s name after :
  take_name s = Some (name, after) -> String.length after < String.length s.
Proof.
  revert name after; induction s as [|c s IH]; simpl; intros name after H.
  - discriminate.
  - destruct (Ascii.eqb c ")").
    + inversion H; subst; lia.
    + destruct (take_name s) as [[n a]|]; [|discriminate].
      inversion H; subst. specialize (IH _ _ eq_refl). lia.
Qed.

Lemma match_token_shorter s name after :
  match_token s = Some (name, after) -> String.length after < String.length s.
Proof.
  unfold match_token.
  destruct s as [|c0 [|c1 rest]]; try discriminate.
  destruct (Ascii.eqb c0 "$" && Ascii.eqb c1 "("); [|discriminate].
  destruct (take_name rest) as [[[|c n] a]|] eqn:T; try discriminate.
  intros H; inversion H; subst.
  apply take_name_shorter in T. simpl. lia.
Qed.

(** [re.sub(pattern, replace, s)]: scan from the left; where the pattern
    matches, emit the replacement and go on after the match; elsewhere
    copy one character and go on at the next. *)
Equations? re_sub (s : string) : string by wf (String.length s) lt :=
  re_sub EmptyString := EmptyString;
  re_sub (String c rest) with inspect (match_token (String c rest)) => {
    | exist _ (Some (name, after)) _ := replace name ++ re_sub after;
    | exist _ None _ := String c (re_sub rest) }.
Proof.
  match goal with
  | H : _ = Some (name, after) |- _ =>
      exact (match_token_shorter (String c rest) H)
  end.
Qed.

(** ** Collaborators of the class

    What [manifest_utils.py] imports and calls but does not define. *)
Record Env : Type := {
  (** [filesystem_utils.read_file] *)
  read_file : string -> result bytes;
  (** [Manifest.BASE_MANIFEST = get_wcp_base_manifest()] *)
  BASE_MANIFEST : bytes;
  (** [apply_delta(DELTA_FLAG_NONE, base, delta).get_buffer()] *)
  apply_delta : bytes -> bytes -> result bytes;
  (** [xml_utils.load_xml_from_buffer] *)
  load_xml_from_buffer : bytes -> result Element;
  (** [os.path.expandvars], against the live environment *)
  expandvars : string -> string;
  (** [os.path.normpath] *)
  normpath : string -> string;
  (** [str.lower], the case mapping of the built-in string type, on any
      text *)
  str_lower : string -> string
}.

(** ** Instances and the work they do *)

Record Manifest : Type := {
  _manifest_name : string;
  _manifest_path : string;
  _manifest_buffer : option bytes;
  _manifest_xml : option Element;
  _manifest_files : option (list string)
}.

Definition COMPONENT_STORE_MANIFESTS_PATH : string := "%SystemRoot%\WinSxS\Manifests\".

(** [Manifest.__init__] *)
Definition init (manifest_name : string) : Manifest :=
  {| _manifest_name := manifest_name;
     _manifest_path := COMPONENT_STORE_MANIFESTS_PATH ++ "\" ++ manifest_name ++ ".manifest";
     _manifest_buffer := None;
     _manifest_xml := None;
     _manifest_files := None |}.

(** The calls an instance makes to its collaborators, oldest first. *)
Inductive event : Type :=
| EvRead (path : string)
| EvApplyDelta (delta : bytes)
| EvParse (buffer : bytes)
| EvFindFiles
| EvPrint.

Record St : Type := { self : Manifest; trace : list event }.

(** A newly constructed instance, before any call. *)
Definition fresh (manifest_name : string) : St :=
  {| self := init manifest_name; trace := [] |}.

Definition is_read (ev : event) : bool :=
  match ev with EvRead _ => true | _ => false end.
Definition is_apply_delta (ev : event) : bool :=
  match ev with EvApplyDelta _ => true | _ => false end.
Definition is_parse (ev : event) : bool :=
  match ev with EvParse _ => true | _ => false end.
Definition is_find_files (ev : event) : bool :=
  match ev with EvFindFiles => true | _ => false end.

(** How often a kind of work was done. *)
Definition count (kind : event -> bool) (t : list event) : nat :=
  List.length (filter kind t).

Inductive outcome (A : Type) : Type :=
| Returned (a : A) (s : St)
| Raised (e : exn) (s : St)
| OutOfFuel (s : St).
Arguments Returned {A} a s.
Arguments Raised {A} e s.
Arguments OutOfFuel {A} s.

Definition M (A : Type) : Type := St -> outcome A.

(** A call terminates when it returns or raises. *)
Definition terminates {A} (o : outcome A) : bool :=
  match o with
  | Returned _ _ | Raised _ _ => true
  | OutOfFuel _ => false
  end.

(** The instance and its trace when the call stopped. *)
Definition final {A} (o : outcome A) : St :=
  match o with
  | Returned _ s | Raised _ s | OutOfFuel s => s
  end.

Definition ret {A} (a : A) : M A := fun s => Returned a s.
Definition raise {A} (e : exn) : M A := fun s => Raised e s.
Definition out_of_fuel {A} : M A := fun s => OutOfFuel s.

Definition bind {A B} (m : M A) (k : A -> M B) : M B :=
  fun s =>
    match m s with
    | Returned a s' => k a s'
    | Raised e s' => Raised e s'
    | OutOfFuel s' => OutOfFuel s'
    end.

Declare Scope manifest_scope.
Delimit Scope manifest_scope with manifest.
Notation "x <- e ;; k" := (bind e (fun x => k))
  (at level 61, e at next level, right associativity) : manifest_scope.
Notation "e ;; k" := (bind e (fun _ => k))
  (at level 61, right associativity) : manifest_scope.

Definition lift {A} (r : result A) : M A :=
  match r with
  | Ok a => ret a
  | Raise e => raise e
  end.

Definition log (ev : event) : M unit :=
  fun s => Returned tt {| self := self s; trace := (trace s ++ [ev])%list |}.

Definition get_self : M Manifest := fun s => Returned (self s) s.

(** Assignments to the three lazily filled attributes. *)
Definition with_buffer (b : bytes) (m : Manifest) : Manifest :=
  {| _manifest_name := _manifest_name m;
     _manifest_path := _manifest_path m;
     _manifest_buffer := Some b;
     _manifest_xml := _manifest_xml m;
     _manifest_files := _manifest_files m |}.

Definition with_xml (x : Element) (m : Manifest) : Manifest :=
  {| _manifest_name := _manifest_name m;
     _manifest_path := _manifest_path m;
     _manifest_buffer := _manifest_buffer m;
     _manifest_xml := Some x;
     _manifest_files := _manifest_files m |}.

Definition with_files (fs : list string) (m : Manifest) : Manifest :=
  {| _manifest_name := _manifest_name m;
     _manifest_path := _manifest_path m;
     _manifest_buffer := _manifest_buffer m;
     _manifest_xml := _manifest_xml m;
     _manifest_files := Some fs |}.

Definition set_manifest_buffer (b : bytes) : M unit :=
  fun s => Returned tt {| self := with_buffer b (self s); trace := trace s |}.

Definition set_manifest_xml (x : Element) : M unit :=
  fun s => Returned tt {| self := with_xml x (self s); trace := trace s |}.

Definition set_manifest_files (fs : list string) : M unit :=
  fun s => Returned tt {| self := with_files fs (self s); trace := trace s |}.

(** [self._manifest_files.append(path)] *)
Definition append_manifest_file (path : string) : M unit :=
  fun s =>
    match _manifest_files (self s) with
    | Some fs => set_manifest_files (fs ++ [path])%list s
    | None => Raised (AttributeError "append") s
    end.

(** The instance with another file list. *)
Definition reset_files (fs : list string) (s : St) : St :=
  {| self := with_files fs (self s); trace := trace s |}.

(** A change of the state in which a call stopped. *)
Definition on_final {A} (f : St -> St) (o : outcome A) : outcome A :=
  match o with
  | Returned a s => Returned a (f s)
  | Raised e s => Raised e (f s)
  | OutOfFuel s => OutOfFuel (f s)
  end.

(** Two states agree on everything but the buffer and the trace. *)
Definition same_caches (s s' : St) : Prop :=
  _manifest_files (self s') = _manifest_files (self s)
  /\ _manifest_xml (self s') = _manifest_xml (self s)
  /\ _manifest_path (self s') = _manifest_path (self s)
  /\ _manifest_name (self s') = _manifest_name (self s).

Definition is_print (ev : event) : bool :=
  match ev with EvPrint => true | _ => false end.

Section Methods.

Variable E : Env.

Local Open Scope manifest_scope.

(** [Manifest.expand_manifest_path_variables] (a static method) *)
Definition expand_manifest_path_variables (str_to_expand : string) : string :=
  let expanded_str := re_sub str_to_expand in
  expandvars E expanded_str.

(** [return self._manifest_buffer]: the attribute is set on every path
    that reaches the statement. *)
Definition return_manifest_buffer : M bytes :=
  me <- get_self ;;
  match _manifest_buffer me with
  | Some b => ret b
  | None => raise TypeError
  end.

(** [Manifest._is_manifest_diff_type]; [get_manifest_buffer] is the method
    it calls back into. *)
Definition _is_manifest_diff_type (get_manifest_buffer : M bytes) : M bool :=
  manifest_buffer <- get_manifest_buffer ;;
  ret (startswith manifest_buffer DCM_HEADER).

(** [Manifest._decompress_manifest] *)
Definition _decompress_manifest (get_manifest_buffer : M bytes) : M bytes :=
  manifest_buffer <- get_manifest_buffer ;;
  let manifest_buffer_without_dcm := skipn 4 manifest_buffer in
  log (EvApplyDelta manifest_buffer_without_dcm) ;;
  lift (apply_delta E (BASE_MANIFEST E) manifest_buffer_without_dcm).

(** [Manifest.get_manifest_buffer].  The method and its two helpers call
    each other; [fuel] bounds the depth of these calls. *)
Fixpoint get_manifest_buffer (fuel : nat) : M bytes :=
  match fuel with
  | O => out_of_fuel
  | S fuel' =>
      me <- get_self ;;
      (if negb (truthy_bytes (_manifest_buffer me)) then
         log (EvRead (_manifest_path me)) ;;
         raw <- lift (read_file E (_manifest_path me)) ;;
         set_manifest_buffer raw ;;
         is_diff <- _is_manifest_diff_type (get_manifest_buffer fuel') ;;
         if is_diff : bool then
           decoded <- _decompress_manifest (get_manifest_buffer fuel') ;;
           set_manifest_buffer decoded
         else ret tt
       else ret tt) ;;
      return_manifest_buffer
  end.

(** [Manifest.get_manifest_xml].  [load_xml_from_buffer] is annotated to
    return an [ET.ElementTree], an object that is always truthy, so
    [not self._manifest_xml] holds exactly while the attribute is [None]. *)
Definition get_manifest_xml (fuel : nat) : M Element :=
  me <- get_self ;;
  match _manifest_xml me with
  | None =>
      manifest_buffer <- get_manifest_buffer fuel ;;
      log (EvParse manifest_buffer) ;;
      doc <- lift (load_xml_from_buffer E manifest_buffer) ;;
      set_manifest_xml doc ;;
      ret doc
  | Some doc => ret doc
  end.

Definition FILE_MATCH : list string := ["{urn:schemas-microsoft-com:asm.v3}file"].

(** The body of the [try] block in [get_manifest_files]: the path one file
    element declares. *)
Definition manifest_file_path (file_element : Element) : result string :=
  (update_dir_path <- get_element_attribute file_element "destinationPath" ;;
   let update_dir_path_exp := expand_manifest_path_variables update_dir_path in
   update_file_name <- get_element_attribute file_element "name" ;;
   let update_file_path := normpath E (update_dir_path_exp ++ "\" ++ update_file_name) in
   Ok update_file_path)%result.

(** The [for] loop of [get_manifest_files], with its [try]/[except]. *)
Fixpoint manifest_files_loop (file_elements : list Element) : M unit :=
  match file_elements with
  | [] => ret tt
  | file_element :: rest =>
      match manifest_file_path file_element with
      | Ok update_file_path => append_manifest_file update_file_path
      | Raise XmlElementAttributeNotFound => log EvPrint
      | Raise e => raise e
      end ;;
      manifest_files_loop rest
  end.

(** [return self._manifest_files] *)
Definition return_manifest_files : M (list string) :=
  me <- get_self ;;
  match _manifest_files me with
  | Some fs => ret fs
  | None => raise TypeError
  end.

(** [Manifest.get_manifest_files] *)
Definition get_manifest_files (fuel : nat) : M (list string) :=
  me <- get_self ;;
  (if negb (truthy_list (_manifest_files me)) then
     set_manifest_files [] ;;
     manifest_xml <- get_manifest_xml fuel ;;
     log EvFindFiles ;;
     manifest_files_loop (find_child_elements_by_match manifest_xml FILE_MATCH)
   else ret tt) ;;
  return_manifest_files.

(** The [for] loop of [is_file_in_manifest_files], with the case mapping
    it compares under. *)
Fixpoint search_manifest_files (to_lower : string -> string)
    (manifest_files : list string) (file_to_search : string) : bool :=
  match manifest_files with
  | [] => false
  | manifest_file :: rest =>
      if String.eqb (to_lower manifest_file) (to_lower file_to_search) then true
      else search_manifest_files to_lower rest file_to_search
  end.

(** [Manifest.is_file_in_manifest_files] *)
Definition is_file_in_manifest_files (fuel : nat) (file_to_search : string) : M bool :=
  manifest_files <- get_manifest_files fuel ;;
  ret (search_manifest_files (str_lower E) manifest_files file_to_search).

(** ** The contracts of the specification, for comparison *)

(** DeltaManifestDecoder.decode, in the spec's words: a buffer that starts
    with the 4-byte marker is a patch, applied without the marker against
    the base document; any other buffer is returned as it is. *)
Definition spec_decode (rawBuffer : bytes) : result bytes :=
  if startswith rawBuffer DCM_HEADER
  then apply_delta E (BASE_MANIFEST E) (skipn 4 rawBuffer)
  else Ok rawBuffer.

(** The calls to the patch collaborator that decoding [rawBuffer] makes. *)
Definition decode_events (rawBuffer : bytes) : list event :=
  if startswith rawBuffer DCM_HEADER then [EvApplyDelta (skipn 4 rawBuffer)] else [].

(** What one file declaration adds to the file list, in the spec's words:
    nothing when its directory or its file name is absent, else the
    expanded directory joined with the name and normalized. *)
Definition declared_file (file_element : Element) : list string :=
  match dict_get (attrib file_element) "destinationPath",
        dict_get (attrib file_element) "name" with
  | Some dir, Some file_name => [normpath E (expandvars E (re_sub dir) ++ "\" ++ file_name)]
  | _, _ => []
  end.

(** The diagnostic prints of the skipped declarations. *)
Definition skipped_prints (file_element : Element) : list event :=
  match declared_file file_element with
  | [] => [EvPrint]
  | _ :: _ => []
  end.

(** How a call of [get_manifest_buffer] can end: it returns the buffer it
    has stored, or raises what the file read or the patch raised. *)
Definition buffer_ends (o : outcome bytes) : Prop :=
  match o with
  | Returned b s => _manifest_buffer (self s) = Some b
  | Raised e _ =>
      (exists path, read_file E path = Raise e)
      \/ (exists delta, apply_delta E (BASE_MANIFEST E) delta = Raise e)
  | OutOfFuel _ => True
  end.

(** How a call of [get_manifest_xml] can end: it returns the document it
    has stored, or raises what the file read, the patch or the parser
    raised. *)
Definition xml_ends (o : outcome Element) : Prop :=
  match o with
  | Returned doc s => _manifest_xml (self s) = Some doc
  | Raised e _ =>
      (exists path, read_file E path = Raise e)
      \/ (exists delta, apply_delta E (BASE_MANIFEST E) delta = Raise e)
      \/ (exists buffer, load_xml_from_buffer E buffer = Raise e)
  | OutOfFuel _ => True
  end.

(** [calls + 1] calls of [get_manifest_files] in a row on one instance;
    the result is that of the last. *)
Fixpoint get_manifest_files_repeated (fuel calls : nat) : M (list string) :=
  match calls with
  | O => get_manifest_files fuel
  | S calls' =>
      get_manifest_files fuel ;;
      get_manifest_files_repeated fuel calls'
  end.

(** Two searches in a row on one instance. *)
Definition search_twice (fuel : nat) (first_file second_file : string) : M (bool * bool) :=
  first_found <- is_file_in_manifest_files fuel first_file ;;
  second_found <- is_file_in_manifest_files fuel second_file ;;
  ret (first_found, second_found).

End Methods.

End manifest_utils.

(* ===================================================================== *)
(** * windows_downdate.py *)
(* ===================================================================== *)

Module windows_downdate.

Import manifest_utils.

(** [filesystem_utils.Path]: the attributes the source reads. *)
Record Path : Type := { full_path : string; name : string }.

(** [update_file.UpdateFile]: the four constructor arguments, in order. *)
Record UpdateFile : Type := {
  source : Path;
  destination : Path;
  should_retrieve_oldest : bool;
  persisted : bool
}.

(** Modelled from the spec: a component of the archive as the
    OldestVersionResolver sees it (component_store_utils.py is not under
    src/): its name, the file list of its manifest, and the path of its
    own copy of a file. *)
Record Component : Type := {
  component_name : string;
  component_files : list string;
  component_file_path : string -> string
}.

(** ** Collaborators of the script *)
Record World : Type := {
  (** [filesystem_utils.is_path_exists] *)
  is_path_exists : string -> bool;
  (** the bytes of each file on disk *)
  file_contents : string -> option bytes;
  (** [xml_utils.load_xml] *)
  load_xml : string -> result Element;
  (** the constructor [Path(...)] *)
  mkPath : string -> Path;
  (** [update_utils.get_empty_pending_xml()] *)
  get_empty_pending_xml : Element;
  (** the component archive, in its enumeration order *)
  archive : list Component
}.

Definition DOWNGRADE_XML_PATH : string := "resources\Downgrade.xml".

(** What a run leaves behind, oldest first. *)
Inductive effect : Type :=
| Wrote (path : string) (document : Element)
| Pended (path : string)
| Restarted (timeout : Z).

(** ** Command line *)

Inductive pyval : Type :=
| PNone
| PStr (s : string)
| PBool (b : bool)
| PInt (z : Z).

Definition truthy (v : pyval) : bool :=
  match v with
  | PNone => false
  | PStr s => negb (String.eqb s "")
  | PBool b => b
  | PInt z => negb (Z.eqb z 0)
  end.

(** The required, mutually exclusive group of [parse_args]. *)
Inductive Target : Type :=
| ConfigXml (path : string)
| CustomPendingXml (path : string).

(** How [--restart-timeout] stands on the command line. *)
Inductive RestartTimeout : Type :=
| TimeoutAbsent
    (** not given: the default of 10 is stored *)
| TimeoutOption (seconds : Z)
    (** [--restart-timeout N]: the option string is an element of [sys.argv] *)
| TimeoutJoined (seconds : Z).
    (** [--restart-timeout=N], or an abbreviation such as [--restart-t N]:
        the option string is no element of [sys.argv] *)

(** A command line whose options are well formed: one target of the
    required group, the flags, and the timeout. *)
Record CommandLine : Type := {
  target : Target;
  force_restart : bool;
  restart_timeout : RestartTimeout;
  elevate : bool;
  invisible : bool;
  persistent : bool;
  irreversible : bool
}.

(** ["--restart-timeout" in sys.argv] *)
Definition restart_timeout_in_argv (cl : CommandLine) : bool :=
  match restart_timeout cl with
  | TimeoutOption _ => true
  | TimeoutAbsent | TimeoutJoined _ => false
  end.

(** An [argparse.Namespace]: its attributes and their values. *)
Definition Namespace : Type := list (string * pyval).

(** [parse_args]: [--force-restart] is required when the string
    [--restart-timeout] is in [sys.argv], and a required option that is
    missing makes [argparse] print the usage and exit with status 2;
    otherwise each option is stored under its [dest], the long option
    string without the leading dashes and with [-] turned into [_]. *)
Definition parse_args (cl : CommandLine) : result Namespace :=
  if restart_timeout_in_argv cl && negb (force_restart cl) then Raise (SystemExit 2)
  else
    Ok [ ("config_xml", match target cl with ConfigXml p => PStr p | _ => PNone end);
         ("custom_pending_xml",
          match target cl with CustomPendingXml p => PStr p | _ => PNone end);
         ("force_restart", PBool (force_restart cl));
         ("restart_timeout",
          PInt (match restart_timeout cl with
                | TimeoutAbsent => 10%Z
                | TimeoutOption t | TimeoutJoined t => t
                end));
         ("elevate", PBool (elevate cl));
         ("invisible", PBool (invisible cl));
         ("persistent", PBool (persistent cl));
         ("irreversible", PBool (irreversible cl)) ].

(** Attribute access [args.attr]. *)
Definition getattr (args : Namespace) (attr : string) : result pyval :=
  match dict_get args attr with
  | Some v => Ok v
  | None => Raise (AttributeError attr)
  end.

Definition as_str (v : pyval) : result string :=
  match v with
  | PStr s => Ok s
  | _ => Raise TypeError
  end.

Definition as_int (v : pyval) : result Z :=
  match v with
  | PInt z => Ok z
  | _ => Raise TypeError
  end.

(** The effects that queue or apply the update. *)
Definition is_queued (ef : effect) : bool :=
  match ef with
  | Pended _ | Restarted _ => true
  | Wrote _ _ => false
  end.

(** The four flags [main] refuses, in the order it tests them. *)
Definition REFUSED_FLAGS : list string :=
  ["invisible"; "persistent"; "irreversible"; "elevate"].

Section Script.

Variable W : World.

Local Open Scope result_scope.

(** Modelled from the spec: [filesystem_utils.is_file_contents_equal]
    (not under src/): both files are read in full and compared byte for
    byte; a file that cannot be read raises. *)
Definition is_file_contents_equal (path_a path_b : string) : result bool :=
  match file_contents W path_a, file_contents W path_b with
  | Some a, Some b => Ok (same_bytes a b)
  | None, _ => Raise (FileNotFoundError path_a)
  | _, None => Raise (FileNotFoundError path_b)
  end.

(** Modelled from the spec: [UpdateFile.to_hardlink_dict] (update_file.py
    is not under src/): the entry names the two absolute paths. *)
Definition to_hardlink_dict (update_file : UpdateFile) : list (string * string) :=
  [ ("source", full_path (source update_file));
    ("destination", full_path (destination update_file)) ].

Definition CONFIG_MATCH : list string := ["UpdateFilesList"; "UpdateFile"].
Definition POQ_MATCH : list string := ["POQ"].

(** The [for] loop of [parse_config_xml]; [update_files] is the list
    built so far. *)
Fixpoint parse_config_loop (elements : list Element) (update_files : list UpdateFile)
  : result (list UpdateFile) :=
  match elements with
  | [] => Ok update_files
  | update_file :: rest =>
      destination_file <- get_element_attribute update_file "destination" ;;
      let destination_file_obj := mkPath W destination_file in
      if negb (is_path_exists W (full_path destination_file_obj)) then
        Raise (FileNotFoundError (full_path destination_file_obj))
      else
        source_file <- get_element_attribute update_file "source" ;;
        let source_file_obj := mkPath W source_file in
        let should_retrieve_oldest :=
          if negb (is_path_exists W (full_path source_file_obj)) then true else false in
        let update_file_obj :=
          {| source := source_file_obj;
             destination := destination_file_obj;
             should_retrieve_oldest := should_retrieve_oldest;
             persisted := false |} in
        parse_config_loop rest (update_files ++ [update_file_obj])%list
  end.

(** [parse_config_xml] *)
Definition parse_config_xml (config_file_path : string) : result (list UpdateFile) :=
  config_xml <- load_xml W config_file_path ;;
  parse_config_loop (find_child_elements_by_match config_xml CONFIG_MATCH) [].

(** [poq_element] is the first [POQ] child of the document root, and
    [append_child_element(poq_element, ...)] changes it in place: the
    document that holds it changes with it. *)
Fixpoint append_to_first (t : string) (child : Element) (siblings : list Element)
  : list Element :=
  match siblings with
  | [] => []
  | e :: rest =>
      if String.eqb (tag e) t then append_child_element e child :: rest
      else e :: append_to_first t child rest
  end.

Definition append_to_poq (downgrade_xml hardlink_element : Element) : Element :=
  Elem (tag downgrade_xml) (attrib downgrade_xml)
       (append_to_first "POQ" hardlink_element (children downgrade_xml)).

(** The [for] loop of [craft_downgrade_xml]. *)
Fixpoint craft_loop (update_files : list UpdateFile) (downgrade_xml : Element)
  : result Element :=
  match update_files with
  | [] => Ok downgrade_xml
  | update_file :: rest =>
      same <- is_file_contents_equal (full_path (source update_file))
                                     (full_path (destination update_file)) ;;
      if same : bool then craft_loop rest downgrade_xml
      else
        let hardlink_dict := to_hardlink_dict update_file in
        let hardlink_element := create_element "HardlinkFile" hardlink_dict in
        craft_loop rest (append_to_poq downgrade_xml hardlink_element)
  end.

(** [craft_downgrade_xml] *)
Definition craft_downgrade_xml (update_files : list UpdateFile) : result Element :=
  let downgrade_xml := get_empty_pending_xml W in
  match find_child_elements_by_match downgrade_xml POQ_MATCH with
  | [] => Raise IndexError
  | _ :: _ => craft_loop update_files downgrade_xml
  end.

(** The operation entries of a queue document: the children of its
    post-restart [POQ] element. *)
Definition poq_entries (downgrade_xml : Element) : list Element :=
  match find_child_elements_by_match downgrade_xml POQ_MATCH with
  | [] => []
  | poq_element :: _ => children poq_element
  end.

(** ** Resolution of missing sources *)

(** Modelled from the spec: [containsFile] of the OldestVersionResolver
    asks the component's manifest, with the loop of
    [Manifest.is_file_in_manifest_files]. *)
Definition containsFile (c : Component) (candidatePath : string) : bool :=
  search_manifest_files lower (component_files c) candidatePath.

(** Modelled from the spec: [resolveSource] (component_store_utils.py is
    not under src/): the components are tried in the archive's order and
    the first that owns the destination gives the source; with none the
    resolution fails. *)
Fixpoint resolveSource (components : list Component) (destinationPath : string)
  : result string :=
  match components with
  | [] => Raise (UnresolvableSourceError destinationPath)
  | c :: rest =>
      if containsFile c destinationPath then Ok (component_file_path c destinationPath)
      else resolveSource rest destinationPath
  end.

(** Modelled from the spec: [retrieve_oldest_files_for_update_files]
    (component_store_utils.py is not under src/): every update file that
    needs resolution gets its source from [resolveSource]. *)
Fixpoint retrieve_oldest_files_for_update_files (update_files : list UpdateFile)
  : result (list UpdateFile) :=
  match update_files with
  | [] => Ok []
  | update_file :: rest =>
      resolved <-
        (if should_retrieve_oldest update_file then
           source_path <- resolveSource (archive W) (full_path (destination update_file)) ;;
           Ok {| source := mkPath W source_path;
                 destination := destination update_file;
                 should_retrieve_oldest := should_retrieve_oldest update_file;
                 persisted := persisted update_file |}
         else Ok update_file) ;;
      rest' <- retrieve_oldest_files_for_update_files rest ;;
      Ok (resolved :: rest')
  end.

(** ** The contracts of the specification, for comparison *)

(** The two files of a pair are both readable and their bytes differ. *)
Definition contents_differ (update_file : UpdateFile) : bool :=
  match file_contents W (full_path (source update_file)),
        file_contents W (full_path (destination update_file)) with
  | Some a, Some b => negb (same_bytes a b)
  | _, _ => false
  end.

(** The replacement-operation entry of a pair: it names the two paths. *)
Definition replacement_entry (update_file : UpdateFile) : Element :=
  Elem "HardlinkFile"
       [ ("source", full_path (source update_file));
         ("destination", full_path (destination update_file)) ]
       [].

(** A request carries both attributes of the declarative format. *)
Definition well_formed_request (request : Element) : Prop :=
  exists destination_file source_file,
    get_element_attribute request "destination" = Ok destination_file
    /\ get_element_attribute request "source" = Ok source_file.

(** A request names a destination that does not exist on the live system. *)
Definition destination_missing (request : Element) : bool :=
  match get_element_attribute request "destination" with
  | Ok destination_file => negb (is_path_exists W (full_path (mkPath W destination_file)))
  | Raise _ => false
  end.

(** A request the loop accepts: both attributes, an existing destination. *)
Definition accepted_request (request : Element) : Prop :=
  well_formed_request request /\ destination_missing request = false.

(** The elements [./POQ] selects. *)
Definition is_poq (e : Element) : bool := String.eqb (tag e) "POQ".

(** The update file [parse_config_xml] builds for a request. *)
Definition built_from (request : Element) (update_file : UpdateFile) : Prop :=
  exists destination_file source_file,
    get_element_attribute request "destination" = Ok destination_file
    /\ get_element_attribute request "source" = Ok source_file
    /\ destination update_file = mkPath W destination_file
    /\ source update_file = mkPath W source_file
    /\ should_retrieve_oldest update_file
       = negb (is_path_exists W (full_path (mkPath W source_file)))
    /\ persisted update_file = false.

(** The two files of a pair are both readable and hold the same bytes. *)
Definition contents_equal (update_file : UpdateFile) : Prop :=
  exists contents,
    file_contents W (full_path (source update_file)) = Some contents
    /\ file_contents W (full_path (destination update_file)) = Some contents.

(** ** The run *)

Definition Run (A : Type) : Type := list effect -> result A * list effect.

Definition run_ret {A} (a : A) : Run A := fun log => (Ok a, log).
Definition run_raise {A} (e : exn) : Run A := fun log => (Raise e, log).
Definition run_lift {A} (r : result A) : Run A := fun log => (r, log).
Definition run_do (ef : effect) : Run unit := fun log => (Ok tt, (log ++ [ef])%list).

Definition run_bind {A B} (m : Run A) (k : A -> Run B) : Run B :=
  fun log =>
    match m log with
    | (Ok a, log') => k a log'
    | (Raise e, log') => (Raise e, log')
    end.

End Script.

Declare Scope run_scope.
Delimit Scope run_scope with run.
Notation "x <- e ;; k" := (run_bind e (fun x => k))
  (at level 61, e at next level, right associativity) : run_scope.
Notation "e ;; k" := (run_bind e (fun _ => k))
  (at level 61, right associativity) : run_scope.

Section Main.

Variable W : World.

Local Open Scope run_scope.

(** Lines 113-117 of [main]: the queue document is crafted from the
    configuration and written out. *)
Definition craft_from_config (config_file : string) : Run string :=
  let downgrade_xml_path := DOWNGRADE_XML_PATH in
  update_files <- run_lift (parse_config_xml W config_file) ;;
  update_files <- run_lift (retrieve_oldest_files_for_update_files W update_files) ;;
  downgrade_xml <- run_lift (craft_downgrade_xml W update_files) ;;
  run_do (Wrote downgrade_xml_path downgrade_xml) ;;
  run_ret downgrade_xml_path.

(** The feature flags of lines 125-139. *)
Definition check_flag (args : Namespace) (flag : string) : Run unit :=
  v <- run_lift (getattr args flag) ;;
  if truthy v then run_raise (NotImplementedError "Not implemented yet")
  else run_ret tt.

(** [main] after [args = parse_args()]. *)
Definition main_with (args : Namespace) : Run unit :=
  config_file <- run_lift (getattr args "config_file") ;;
  downgrade_xml_path <-
    (if truthy config_file then
       config_file <- run_lift (as_str config_file) ;;
       if negb (is_path_exists W config_file) then
         run_raise (Exception_ "Config.xml file does not exist")
       else craft_from_config config_file
     else
       custom_pending_xml <- run_lift (getattr args "custom_pending_xml") ;;
       custom_pending_xml <- run_lift (as_str custom_pending_xml) ;;
       if negb (is_path_exists W custom_pending_xml) then
         run_raise (Exception_ "Custom Pending.xml file does not exist")
       else run_ret custom_pending_xml) ;;
  check_flag args "invisible" ;;
  check_flag args "persistent" ;;
  check_flag args "irreversible" ;;
  check_flag args "elevate" ;;
  run_do (Pended downgrade_xml_path) ;;
  force_restart <- run_lift (getattr args "force_restart") ;;
  if truthy force_restart then
    restart_timeout <- run_lift (getattr args "restart_timeout") ;;
    restart_timeout <- run_lift (as_int restart_timeout) ;;
    run_do (Restarted restart_timeout)
  else run_ret tt.

(** [main]; [init_logger] leaves nothing behind. *)
Definition main (cl : CommandLine) : Run unit :=
  args <- run_lift (parse_args cl) ;;
  main_with args.

End Main.

End windows_downdate.

(* ===================================================================== *)
(** * A small component store and live system, for the examples *)
(* ===================================================================== *)

Module demo.

Import manifest_utils windows_downdate.

Definition b (s : string) : bytes := list_byte_of_string s.

Definition FILE : string := "{urn:schemas-microsoft-com:asm.v3}file".

Definition doc_two_files : Element :=
  Elem "assembly" []
    [ Elem "assemblyIdentity" [("name", "demo")] [];
      Elem FILE [("name", "foo.dll"); ("destinationPath", "$(runtime.system32)")] [];
      Elem FILE [("name", "bar.sys"); ("destinationPath", "$(Runtime.Drivers)")] [] ].

Definition doc_partial : Element :=
  Elem "assembly" []
    [ Elem FILE [("name", "orphan.dll")] [];
      Elem FILE [("destinationPath", "$(runtime.system32)")] [];
      Elem FILE [("name", "foo.dll"); ("destinationPath", "$(runtime.system32)")] [] ].

Definition doc_no_files : Element :=
  Elem "assembly" [] [ Elem "assemblyIdentity" [("name", "demo")] [] ].

Definition path_of (manifest_name : string) : string :=
  _manifest_path (init manifest_name).

(** Six manifests on disk: a full document, a differential record, a
    differential record whose patch is corrupt, a document that declares
    no file, one with partial declarations, and a file of zero bytes. *)
Definition demo_read_file (path : string) : result bytes :=
  if String.eqb path (path_of "plain") then Ok (b "P")
  else if String.eqb path (path_of "delta") then Ok (DCM_HEADER ++ b "D")%list
  else if String.eqb path (path_of "corrupt") then Ok (DCM_HEADER ++ b "X")%list
  else if String.eqb path (path_of "nofiles") then Ok (b "N")
  else if String.eqb path (path_of "partial") then Ok (b "M")
  else if String.eqb path (path_of "empty") then Ok []
  else Raise (FileNotFoundError path).

Definition demo_load_xml_from_buffer (buffer : bytes) : result Element :=
  match buffer with
  | x50 :: _ => Ok doc_two_files
  | x42 :: _ => Ok doc_two_files
  | x4e :: _ => Ok doc_no_files
  | x4d :: _ => Ok doc_partial
  | _ => Raise ParseError
  end.

(** A patch that starts with [X] is corrupt, any other is appended to the
    base. *)
Definition demo_apply_delta (base delta : bytes) : result bytes :=
  match delta with
  | x58 :: _ => Raise DeltaError
  | _ => Ok (base ++ delta)%list
  end.

(** [str.lower] and [str.upper] as Python computes them on text of the
    Basic Latin and Latin-1 Supplement blocks (U+0000 to U+00FF).  In
    UTF-8 the letters of the second block are the two-byte sequences that
    start with 195, and its micro sign is 194 181.  Characters outside the
    two blocks, which the examples do not use, are copied. *)
Definition is_latin1_capital (d : ascii) : bool :=
  let n := nat_of_ascii d in
  ((128 <=? n) && (n <=? 158) && negb (n =? 151))%nat.

Definition is_latin1_small (d : ascii) : bool :=
  let n := nat_of_ascii d in
  ((160 <=? n) && (n <=? 190) && negb (n =? 183))%nat.

Fixpoint demo_str_lower (s : string) : string :=
  match s with
  | EmptyString => EmptyString
  | String c tail =>
      match tail with
      | String d rest =>
          if (nat_of_ascii c =? 195)%nat && is_latin1_capital d
          then String c (String (ascii_of_nat (nat_of_ascii d + 32)) (demo_str_lower rest))
          else String (lower_ascii c) (demo_str_lower tail)
      | EmptyString => String (lower_ascii c) EmptyString
      end
  end.

Fixpoint demo_str_upper (s : string) : string :=
  match s with
  | EmptyString => EmptyString
  | String c tail =>
      match tail with
      | String d rest =>
          if (nat_of_ascii c =? 195)%nat then
            if (nat_of_ascii d =? 159)%nat then "SS" ++ demo_str_upper rest
            else if (nat_of_ascii d =? 191)%nat
                 then String (ascii_of_nat 197) (String (ascii_of_nat 184) (demo_str_upper rest))
            else if is_latin1_small d
                 then String c (String (ascii_of_nat (nat_of_ascii d - 32)) (demo_str_upper rest))
            else String c (demo_str_upper tail)
          else if (nat_of_ascii c =? 194)%nat && (nat_of_ascii d =? 181)%nat
               then String (ascii_of_nat 206) (String (ascii_of_nat 156) (demo_str_upper rest))
          else String (upper_ascii c) (demo_str_upper tail)
      | EmptyString => String (upper_ascii c) EmptyString
      end
  end.

(** No environment variable is set, and paths are already normal. *)
Definition demo_env : Env :=
  {| read_file := demo_read_file;
     BASE_MANIFEST := b "B";
     apply_delta := demo_apply_delta;
     load_xml_from_buffer := demo_load_xml_from_buffer;
     expandvars := fun s => s;
     normpath := fun s => s;
     str_lower := demo_str_lower |}.

Definition live_foo : string := "C:\Windows\System32\foo.dll".
Definition live_bar : string := "C:\Windows\System32\bar.dll".
Definition old_foo : string := "C:\Old\foo.dll".
Definition old_bar : string := "C:\Old\bar.dll".
Definition gone : string := "C:\Windows\System32\gone.dll".

(** [foo.dll] differs from its old version, [bar.dll] does not. *)
Definition demo_file_contents (path : string) : option bytes :=
  if String.eqb path live_foo then Some (b "B")
  else if String.eqb path old_foo then Some (b "A")
  else if String.eqb path live_bar then Some (b "S")
  else if String.eqb path old_bar then Some (b "S")
  else None.

Definition request (src dst : string) : Element :=
  Elem "UpdateFile" [("source", src); ("destination", dst)] [].

Definition demo_config : Element :=
  Elem "Configuration" []
    [ Elem "UpdateFilesList" []
        [ request old_bar live_bar; request old_foo live_foo ] ].

Definition demo_config_missing : Element :=
  Elem "Configuration" []
    [ Elem "UpdateFilesList" []
        [ request old_foo live_foo; request old_bar gone; request old_bar live_bar ] ].

Definition demo_config_unowned : Element :=
  Elem "Configuration" []
    [ Elem "UpdateFilesList" [] [ request "C:\Nowhere\bar.dll" live_bar ] ].

Definition demo_load_xml (path : string) : result Element :=
  if String.eqb path "Config.xml" then Ok demo_config
  else if String.eqb path "Missing.xml" then Ok demo_config_missing
  else if String.eqb path "Unowned.xml" then Ok demo_config_unowned
  else Raise (FileNotFoundError path).

Definition demo_empty_pending_xml : Element :=
  Elem "PendingTransaction" [("Version", "3.1")]
    [ Elem "POQ" [("postAction", "reboot")] [];
      Elem "POQ" [] [] ].

Definition demo_archive : list Component :=
  [ {| component_name := "first";
       component_files := ["c:\windows\system32\other.dll"];
       component_file_path := fun _ => "C:\Store\first\other.dll" |};
    {| component_name := "second";
       component_files := ["c:\windows\system32\FOO.dll"];
       component_file_path := fun _ => "C:\Store\second\foo.dll" |};
    {| component_name := "third";
       component_files := ["C:\Windows\System32\foo.dll"];
       component_file_path := fun _ => "C:\Store\third\foo.dll" |} ].

Definition demo_world : World :=
  {| is_path_exists := fun path =>
       match demo_file_contents path with
       | Some _ => true
       | None => String.eqb path "Config.xml" || String.eqb path "Missing.xml"
                 || String.eqb path "Unowned.xml"
       end;
     file_contents := demo_file_contents;
     load_xml := demo_load_xml;
     mkPath := fun s => {| full_path := s; name := s |};
     get_empty_pending_xml := demo_empty_pending_xml;
     archive := demo_archive |}.

Definition demo_command_line (t : Target) (flag : bool) : CommandLine :=
  {| target := t;
     force_restart := false;
     restart_timeout := TimeoutAbsent;
     elevate := false;
     invisible := flag;
     persistent := false;
     irreversible := false |}.

(** The instance of the manifest that declares no file, after its first
    call of [get_manifest_files]. *)
Definition no_files_after_first_call : St :=
  final (get_manifest_files demo_env 2 (fresh "nofiles")).

(** The two pairs of [Config.xml], as [parse_config_xml] returns them. *)
Definition demo_update_files : list UpdateFile :=
  [ {| source := mkPath demo_world old_bar; destination := mkPath demo_world live_bar;
       should_retrieve_oldest := false; persisted := false |};
    {| source := mkPath demo_world old_foo; destination := mkPath demo_world live_foo;
       should_retrieve_oldest := false; persisted := false |} ].

End demo.

(** Three more manifests: a differential record whose patch gives no
    bytes, a full document that does not parse, and one that lists a file
    whose name is not ASCII. *)
Module demo_more.

Import manifest_utils windows_downdate demo.

Definition more_read_file (path : string) : result bytes :=
  if String.eqb path (path_of "hollow") then Ok (DCM_HEADER ++ b "E")%list
  else if String.eqb path (path_of "garbled") then Ok (b "Z")
  else if String.eqb path (path_of "eszett") then Ok (b "S")
  else demo_read_file path.

(** A manifest whose one file has a name outside ASCII. *)
Definition doc_eszett : Element :=
  Elem "assembly" []
    [ Elem FILE [("name", "straße.dll"); ("destinationPath", "$(runtime.system32)")] [] ].

Definition more_load_xml_from_buffer (buffer : bytes) : result Element :=
  match buffer with
  | x53 :: _ => Ok doc_eszett
  | _ => demo_load_xml_from_buffer buffer
  end.

Definition more_apply_delta (base delta : bytes) : result bytes :=
  match delta with
  | x45 :: _ => Ok []
  | _ => demo_apply_delta base delta
  end.

Definition more_env : Env :=
  {| read_file := more_read_file;
     BASE_MANIFEST := b "B";
     apply_delta := more_apply_delta;
     load_xml_from_buffer := more_load_xml_from_buffer;
     expandvars := fun s => s;
     normpath := fun s => s;
     str_lower := demo_str_lower |}.

(** A request without its source, one without its destination. *)
Definition demo_config_no_source : Element :=
  Elem "Configuration" []
    [ Elem "UpdateFilesList" []
        [ request old_foo live_foo;
          Elem "UpdateFile" [("destination", live_bar)] [];
          request old_bar gone ] ].

Definition demo_config_same : Element :=
  Elem "Configuration" []
    [ Elem "UpdateFilesList" [] [ request old_bar live_bar; request "C:\Absent.dll" live_foo ] ].

Definition more_load_xml (path : string) : result Element :=
  if String.eqb path "NoSource.xml" then Ok demo_config_no_source
  else if String.eqb path "Same.xml" then Ok demo_config_same
  else demo_load_xml path.

Definition more_world : World :=
  {| is_path_exists := is_path_exists demo_world;
     file_contents := demo_file_contents;
     load_xml := more_load_xml;
     mkPath := mkPath demo_world;
     get_empty_pending_xml := demo_empty_pending_xml;
     archive := demo_archive |}.

(** A namespace as [main] expects it: [config_file] is set. *)
Definition namespace_with_config_file (flag : string) : Namespace :=
  [ ("config_file", PStr "Config.xml");
    ("custom_pending_xml", PNone);
    ("force_restart", PBool true);
    ("restart_timeout", PInt 10%Z);
    ("elevate", PBool (String.eqb flag "elevate"));
    ("invisible", PBool (String.eqb flag "invisible"));
    ("persistent", PBool (String.eqb flag "persistent"));
    ("irreversible", PBool (String.eqb flag "irreversible")) ].

End demo_more.

(* ===================================================================== *)
(** * Properties of the Manifest class *)
(* ===================================================================== *)

Import manifest_utils windows_downdate.

Ltac run_step :=
  unfold bind, ret, raise, lift, log, get_self, set_manifest_buffer, set_manifest_xml,
    set_manifest_files, append_manifest_file, return_manifest_buffer,
    return_manifest_files, _is_manifest_diff_type, _decompress_manifest, out_of_fuel;
  simpl.

(** Counting over traces. *)
Lemma count_app kind (t1 t2 : list event) :
  count kind (t1 ++ t2) = count kind t1 + count kind t2.
Proof. unfold count. now rewrite filter_app, length_app. Qed.

Lemma count_repeat_read path n : count is_read (repeat (EvRead path) n) = n.
Proof. induction n as [|n IH]; [reflexivity|]. unfold count in *; simpl. now rewrite IH. Qed.

Lemma truthy_bytes_nonempty (raw : bytes) : raw <> [] -> truthy_bytes (Some raw) = true.
Proof. destruct raw; [congruence | reflexivity]. Qed.

Section ManifestFacts.

Variable E : Env.

(** One level of [get_manifest_buffer]. *)
Lemma get_manifest_buffer_unfold fuel :
  get_manifest_buffer E (S fuel) =
  (me <- get_self ;;
   (if negb (truthy_bytes (_manifest_buffer me)) then
      log (EvRead (_manifest_path me)) ;;
      raw <- lift (read_file E (_manifest_path me)) ;;
      set_manifest_buffer raw ;;
      is_diff <- _is_manifest_diff_type (get_manifest_buffer E fuel) ;;
      if is_diff : bool then
        decoded <- _decompress_manifest E (get_manifest_buffer E fuel) ;;
        set_manifest_buffer decoded
      else ret tt
    else ret tt) ;;
   return_manifest_buffer)%manifest.
Proof. reflexivity. Qed.

Arguments get_manifest_buffer : simpl never.

(** A buffer that is cached and not empty is returned without any work. *)
Lemma get_manifest_buffer_cached fuel s b0 :
  _manifest_buffer (self s) = Some b0 -> b0 <> [] ->
  get_manifest_buffer E (S fuel) s = Returned b0 s.
Proof.
  intros Hb Hne. rewrite get_manifest_buffer_unfold. run_step. rewrite Hb.
  rewrite (truthy_bytes_nonempty Hne). run_step. now rewrite Hb.
Qed.

(** The first call on a file that is not empty: one read, then the
    decoding the specification describes. *)
Lemma get_manifest_buffer_decodes_nonempty fuel s raw :
  truthy_bytes (_manifest_buffer (self s)) = false ->
  read_file E (_manifest_path (self s)) = Ok raw ->
  raw <> [] ->
  get_manifest_buffer E (S (S fuel)) s =
    let t := (trace s ++ EvRead (_manifest_path (self s)) :: decode_events raw)%list in
    match spec_decode E raw with
    | Ok decoded => Returned decoded {| self := with_buffer decoded (self s); trace := t |}
    | Raise e => Raised e {| self := with_buffer raw (self s); trace := t |}
    end.
Proof.
  intros Hfalsy Hread Hne.
  rewrite get_manifest_buffer_unfold. run_step. rewrite Hfalsy. run_step. rewrite Hread. run_step.
  set (s1 := {| self := with_buffer raw (self s); trace := _ |}).
  assert (H1 : get_manifest_buffer E (S fuel) s1 = Returned raw s1)
    by (apply get_manifest_buffer_cached; [reflexivity | exact Hne]).
  rewrite H1. unfold spec_decode, decode_events.
  destruct (startswith raw DCM_HEADER) eqn:Hdcm.
  - rewrite H1. run_step.
    destruct (apply_delta E _ _) as [decoded|e]; run_step;
      unfold s1; simpl; rewrite <- app_assoc; reflexivity.
  - run_step. reflexivity.
Qed.

(** On a file of zero bytes the stored buffer stays falsy, so each nested
    call reads the file again: no amount of fuel is enough. *)
Lemma get_manifest_buffer_empty_diverges fuel :
  forall s,
    truthy_bytes (_manifest_buffer (self s)) = false ->
    read_file E (_manifest_path (self s)) = Ok [] ->
    exists s',
      get_manifest_buffer E fuel s = OutOfFuel s'
      /\ trace s' = (trace s ++ repeat (EvRead (_manifest_path (self s))) fuel)%list.
Proof.
  induction fuel as [|fuel IH]; intros s Hfalsy Hread.
  - exists s. split; [reflexivity | simpl; now rewrite app_nil_r].
  - rewrite get_manifest_buffer_unfold. run_step. rewrite Hfalsy. run_step.
    rewrite Hread. run_step.
    match goal with |- context [get_manifest_buffer E fuel ?s1] =>
      destruct (IH s1) as (s' & Hrun & Htr); [reflexivity | exact Hread |] end.
    rewrite Hrun. exists s'. split; [reflexivity|].
    rewrite Htr. simpl. now rewrite <- app_assoc.
Qed.

Arguments find_child_elements_by_match : simpl never.

(** The [try] block succeeds exactly on the declarations that carry both
    attributes. *)
Lemma manifest_file_path_declared file_element :
  manifest_file_path E file_element =
    match declared_file E file_element with
    | p :: _ => Ok p
    | [] => Raise XmlElementAttributeNotFound
    end.
Proof.
  unfold manifest_file_path, declared_file, get_element_attribute,
    expand_manifest_path_variables, rbind.
  destruct (dict_get (attrib file_element) "destinationPath");
    destruct (dict_get (attrib file_element) "name"); reflexivity.
Qed.

(** The loop appends the declared paths in document order and prints once
    for each declaration it skips; it never raises. *)
Lemma manifest_files_loop_spec file_elements :
  forall s acc,
    _manifest_files (self s) = Some acc ->
    manifest_files_loop E file_elements s =
      Returned tt
        {| self := with_files (acc ++ flat_map (declared_file E) file_elements) (self s);
           trace := trace s ++ flat_map (skipped_prints E) file_elements |}%list.
Proof.
  induction file_elements as [|e rest IH]; intros s acc Hacc.
  - simpl. run_step. rewrite !app_nil_r.
    destruct s as [[n p bf x fs] t]; simpl in *. subst. reflexivity.
  - cbn [manifest_files_loop flat_map]. rewrite manifest_file_path_declared.
    unfold skipped_prints at 1.
    destruct (declared_file E e) as [|p ps] eqn:Hd.
    + run_step. erewrite IH by (simpl; exact Hacc). simpl.
      rewrite <- app_assoc. reflexivity.
    + assert (ps = []) as ->.
      { unfold declared_file in Hd.
        destruct (dict_get (attrib e) "destinationPath");
          destruct (dict_get (attrib e) "name"); congruence. }
      run_step. rewrite Hacc. run_step.
      erewrite IH by reflexivity. simpl.
      rewrite <- app_assoc. reflexivity.
Qed.

(** Reading and decoding touch the buffer and the trace only. *)
Lemma get_manifest_buffer_frame fuel :
  forall s, same_caches s (final (get_manifest_buffer E fuel s)).
Proof.
  unfold same_caches.
  induction fuel as [|fuel IH]; intros s; [simpl; auto|].
  rewrite get_manifest_buffer_unfold. run_step.
  destruct (truthy_bytes (_manifest_buffer (self s))); run_step.
  - destruct (_manifest_buffer (self s)); simpl; auto.
  - destruct (read_file E (_manifest_path (self s))) as [raw|e]; run_step; auto.
    match goal with |- context [get_manifest_buffer E fuel ?s1] =>
      pose proof (IH s1) as H1; destruct (get_manifest_buffer E fuel s1) as [b1 s1'|e1 s1'|s1']
    end; simpl in H1; auto.
    destruct (startswith b1 DCM_HEADER); run_step.
    + pose proof (IH s1') as H2.
      destruct (get_manifest_buffer E fuel s1') as [b2 s2'|e2 s2'|s2']; simpl in H2;
        [|simpl; intuition congruence..].
      destruct (apply_delta E _ _); run_step; intuition congruence.
    + destruct (_manifest_buffer (self s1')); simpl; auto.
Qed.

(** Loading the document leaves the file list alone. *)
Lemma get_manifest_xml_files_frame fuel s :
  _manifest_files (self (final (get_manifest_xml E fuel s))) = _manifest_files (self s).
Proof.
  unfold get_manifest_xml. run_step.
  destruct (_manifest_xml (self s)); [reflexivity|].
  pose proof (get_manifest_buffer_frame fuel s) as (Hf & _).
  destruct (get_manifest_buffer E fuel s) as [b1 s1|e1 s1|s1]; simpl in *; auto.
  destruct (load_xml_from_buffer E b1); run_step; auto.
Qed.

(** A cached document is returned without any work. *)
Lemma get_manifest_xml_cached fuel s doc :
  _manifest_xml (self s) = Some doc ->
  get_manifest_xml E fuel s = Returned doc s.
Proof. intros H. unfold get_manifest_xml. run_step. now rewrite H. Qed.

(** A cached file list that is not empty is returned without any work. *)
Lemma get_manifest_files_cached fuel s f fs :
  _manifest_files (self s) = Some (f :: fs) ->
  get_manifest_files E fuel s = Returned (f :: fs) s.
Proof.
  intros H. unfold get_manifest_files. run_step. rewrite H. run_step. now rewrite H.
Qed.

(** A call that does not find a truthy file list recomputes it from the
    document. *)
Lemma get_manifest_files_computes fuel s doc s1 :
  truthy_list (_manifest_files (self s)) = false ->
  get_manifest_xml E fuel {| self := with_files [] (self s); trace := trace s |}
    = Returned doc s1 ->
  let file_elements := find_child_elements_by_match doc FILE_MATCH in
  let files := flat_map (declared_file E) file_elements in
  get_manifest_files E fuel s =
    Returned files
      {| self := with_files files (self s1);
         trace := trace s1 ++ EvFindFiles :: flat_map (skipped_prints E) file_elements |}%list.
Proof.
  intros Hfalsy Hxml file_elements files.
  pose proof (get_manifest_xml_files_frame fuel
                {| self := with_files [] (self s); trace := trace s |}) as Hframe.
  rewrite Hxml in Hframe; simpl in Hframe.
  unfold get_manifest_files. run_step. rewrite Hfalsy. run_step.
  rewrite Hxml.
  fold file_elements.
  erewrite manifest_files_loop_spec by exact Hframe.
  simpl. rewrite <- app_assoc. reflexivity.
Qed.

(** The file list plays no part in reading, decoding and parsing. *)
Lemma get_manifest_buffer_ignores_files fs fuel :
  forall s,
    get_manifest_buffer E fuel (reset_files fs s)
    = on_final (reset_files fs) (get_manifest_buffer E fuel s).
Proof.
  induction fuel as [|fuel IH]; intros s; [reflexivity|].
  rewrite !get_manifest_buffer_unfold. run_step.
  destruct (truthy_bytes (_manifest_buffer (self s))); run_step.
  - destruct (_manifest_buffer (self s)); reflexivity.
  - destruct (read_file E (_manifest_path (self s))) as [raw|e]; run_step; [|reflexivity].
    match goal with |- context [get_manifest_buffer E fuel ?s1] =>
      change s1 with (reset_files fs {| self := with_buffer raw (self s);
                        trace := trace s ++ [EvRead (_manifest_path (self s))] |})
    end.
    rewrite IH.
    match goal with |- context [on_final _ (get_manifest_buffer E fuel ?s1)] =>
      destruct (get_manifest_buffer E fuel s1) as [b1 s1'|e1 s1'|s1'] end;
      simpl; try reflexivity.
    destruct (startswith b1 DCM_HEADER); run_step.
    + rewrite IH.
      destruct (get_manifest_buffer E fuel s1') as [b2 s2'|e2 s2'|s2']; simpl;
        try reflexivity.
      destruct (apply_delta E _ _); run_step; reflexivity.
    + destruct (_manifest_buffer (self s1')); reflexivity.
Qed.

Lemma get_manifest_xml_ignores_files fs fuel s :
  get_manifest_xml E fuel (reset_files fs s)
  = on_final (reset_files fs) (get_manifest_xml E fuel s).
Proof.
  unfold get_manifest_xml. run_step.
  destruct (_manifest_xml (self s)); [reflexivity|].
  change {| self := with_files fs (self s); trace := trace s |} with (reset_files fs s).
  rewrite get_manifest_buffer_ignores_files.
  destruct (get_manifest_buffer E fuel s) as [b1 s1|e1 s1|s1]; simpl; try reflexivity.
  destruct (load_xml_from_buffer E b1); run_step; reflexivity.
Qed.

(** The [None] branch of [return_manifest_buffer] is never taken. *)
Lemma get_manifest_buffer_ends fuel :
  forall s, buffer_ends E (get_manifest_buffer E fuel s).
Proof.
  induction fuel as [|fuel IH]; intros s; [exact I|].
  rewrite get_manifest_buffer_unfold. run_step.
  destruct (truthy_bytes (_manifest_buffer (self s))) eqn:Htruthy; run_step.
  - destruct (_manifest_buffer (self s)) eqn:Hb; [|discriminate]. simpl. exact Hb.
  - destruct (read_file E (_manifest_path (self s))) as [raw|e0] eqn:Hread; run_step;
      [|left; eexists; exact Hread].
    match goal with |- context [get_manifest_buffer E fuel ?s1] =>
      pose proof (IH s1) as H1;
      destruct (get_manifest_buffer E fuel s1) as [b1 s1'|e1 s1'|s1'] end;
      simpl in H1; [|exact H1|exact I].
    destruct (startswith b1 DCM_HEADER); run_step.
    + pose proof (IH s1') as H2.
      destruct (get_manifest_buffer E fuel s1') as [b2 s2'|e2 s2'|s2'];
        simpl in H2; [|exact H2|exact I].
      destruct (apply_delta E _ _) as [d|e3] eqn:Hd; run_step;
        [reflexivity | right; eexists; exact Hd].
    + rewrite H1. simpl. exact H1.
Qed.

(** A failed patch leaves the raw record in the buffer: the call raises,
    and the next call returns the record undecoded. *)
Lemma get_manifest_buffer_after_failed_patch fuel s raw e :
  truthy_bytes (_manifest_buffer (self s)) = false ->
  read_file E (_manifest_path (self s)) = Ok raw ->
  startswith raw DCM_HEADER = true ->
  apply_delta E (BASE_MANIFEST E) (skipn 4 raw) = Raise e ->
  exists s1,
    get_manifest_buffer E (S (S fuel)) s = Raised e s1
    /\ get_manifest_buffer E (S fuel) s1 = Returned raw s1.
Proof.
  intros Hfalsy Hread Hdcm Hpatch.
  assert (Hne : raw <> []) by (intros ->; discriminate).
  rewrite (get_manifest_buffer_decodes_nonempty fuel s Hfalsy Hread Hne).
  cbv zeta. unfold spec_decode. rewrite Hdcm, Hpatch.
  eexists. split; [reflexivity|].
  apply get_manifest_buffer_cached; [reflexivity | exact Hne].
Qed.

(** The accessors built on the buffer inherit its behaviour on a file of
    zero bytes. *)
Lemma get_manifest_xml_empty_file_diverges fuel s :
  _manifest_xml (self s) = None ->
  truthy_bytes (_manifest_buffer (self s)) = false ->
  read_file E (_manifest_path (self s)) = Ok [] ->
  exists s',
    get_manifest_xml E fuel s = OutOfFuel s'
    /\ trace s' = (trace s ++ repeat (EvRead (_manifest_path (self s))) fuel)%list.
Proof.
  intros Hxml Hfalsy Hread.
  destruct (get_manifest_buffer_empty_diverges fuel s Hfalsy Hread) as (s' & Hrun & Htr).
  exists s'. split; [|exact Htr].
  unfold get_manifest_xml. run_step. now rewrite Hxml, Hrun.
Qed.

Lemma get_manifest_files_empty_file_diverges fuel s :
  truthy_list (_manifest_files (self s)) = false ->
  _manifest_xml (self s) = None ->
  truthy_bytes (_manifest_buffer (self s)) = false ->
  read_file E (_manifest_path (self s)) = Ok [] ->
  exists s',
    get_manifest_files E fuel s = OutOfFuel s'
    /\ trace s' = (trace s ++ repeat (EvRead (_manifest_path (self s))) fuel)%list.
Proof.
  intros Hfiles Hxml Hfalsy Hread.
  destruct (@get_manifest_xml_empty_file_diverges fuel (reset_files [] s) Hxml Hfalsy Hread)
    as (s' & Hrun & Htr).
  exists s'. split; [|exact Htr].
  unfold get_manifest_files. run_step. rewrite Hfiles. run_step.
  unfold reset_files in Hrun. now rewrite Hrun.
Qed.

(** A document that was returned is cached. *)
Lemma get_manifest_xml_returns_cached fuel s doc s1 :
  get_manifest_xml E fuel s = Returned doc s1 -> _manifest_xml (self s1) = Some doc.
Proof.
  unfold get_manifest_xml. run_step.
  destruct (_manifest_xml (self s)) as [cached|] eqn:Hxml.
  - intros H; inversion H; subst. exact Hxml.
  - destruct (get_manifest_buffer E fuel s) as [b1 s'|e1 s'|s']; try discriminate.
    destruct (load_xml_from_buffer E b1); run_step; [|discriminate].
    intros H; inversion H; subst. reflexivity.
Qed.

(** The diagnostic prints are no reads, patches, parses or scans. *)
Lemma count_skipped_prints kind file_elements :
  kind EvPrint = false -> count kind (flat_map (skipped_prints E) file_elements) = 0.
Proof.
  intros Hk. induction file_elements as [|e l IH]; [reflexivity|].
  simpl. rewrite count_app, IH. unfold skipped_prints.
  destruct (declared_file E e); unfold count; simpl; [now rewrite Hk | reflexivity].
Qed.

(** A cached list that is empty is not taken for cached: the document is
    scanned again, and nothing is read, decoded or parsed. *)
Lemma get_manifest_files_recomputes fuel s doc :
  _manifest_xml (self s) = Some doc ->
  _manifest_files (self s) = Some [] ->
  exists s',
    get_manifest_files E fuel s
      = Returned (flat_map (declared_file E) (find_child_elements_by_match doc FILE_MATCH)) s'
    /\ _manifest_xml (self s') = Some doc
    /\ count is_find_files (trace s') = S (count is_find_files (trace s))
    /\ count is_read (trace s') = count is_read (trace s)
    /\ count is_apply_delta (trace s') = count is_apply_delta (trace s)
    /\ count is_parse (trace s') = count is_parse (trace s).
Proof.
  intros Hxml Hfiles.
  assert (Hc : get_manifest_xml E fuel (reset_files [] s) = Returned doc (reset_files [] s))
    by (apply get_manifest_xml_cached; exact Hxml).
  eexists. split.
  - apply get_manifest_files_computes; [now rewrite Hfiles | exact Hc].
  - simpl. split; [exact Hxml|].
    change (EvFindFiles :: ?l) with ([EvFindFiles] ++ l)%list.
    repeat split; rewrite !count_app, count_skipped_prints by reflexivity;
      unfold count at 2; simpl; lia.
Qed.

(** What the caches do give: when a call of [get_manifest_files] returns,
    the next call returns an equal list, and reads, decodes and parses
    nothing; it leaves the instance untouched when the list is not empty. *)
Lemma get_manifest_files_second_call fuel s files s1 :
  get_manifest_files E fuel s = Returned files s1 ->
  exists s2,
    get_manifest_files E fuel s1 = Returned files s2
    /\ count is_read (trace s2) = count is_read (trace s1)
    /\ count is_apply_delta (trace s2) = count is_apply_delta (trace s1)
    /\ count is_parse (trace s2) = count is_parse (trace s1)
    /\ (files <> [] -> s2 = s1).
Proof.
  intros Hrun.
  assert (Hnext : forall doc, _manifest_xml (self s1) = Some doc ->
            _manifest_files (self s1) = Some files ->
            files = flat_map (declared_file E) (find_child_elements_by_match doc FILE_MATCH) ->
            exists s2,
              get_manifest_files E fuel s1 = Returned files s2
              /\ count is_read (trace s2) = count is_read (trace s1)
              /\ count is_apply_delta (trace s2) = count is_apply_delta (trace s1)
              /\ count is_parse (trace s2) = count is_parse (trace s1)
              /\ (files <> [] -> s2 = s1)).
  { intros doc Hxml Hfiles Hdecl. destruct files as [|f fs].
    - destruct (get_manifest_files_recomputes fuel s1 Hxml Hfiles)
        as (s2 & Hrun2 & _ & _ & Hr & Hd & Hp).
      exists s2. rewrite Hrun2, <- Hdecl. repeat split; auto. congruence.
    - exists s1. rewrite (get_manifest_files_cached fuel s1 Hfiles). repeat split; auto. }
  destruct (truthy_list (_manifest_files (self s))) eqn:Htruthy.
  - destruct (_manifest_files (self s)) as [[|f fs]|] eqn:Hfiles; try discriminate.
    rewrite (get_manifest_files_cached fuel s Hfiles) in Hrun. inversion Hrun; subst.
    exists s1. rewrite (get_manifest_files_cached fuel s1 Hfiles). repeat split; auto.
  - destruct (get_manifest_xml E fuel (reset_files [] s)) as [doc s'|e s'|s'] eqn:Hxml.
    + rewrite (get_manifest_files_computes fuel s Htruthy Hxml) in Hrun.
      cbv zeta in Hrun. inversion Hrun; subst.
      apply (Hnext doc); [|reflexivity|reflexivity].
      simpl. now apply get_manifest_xml_returns_cached in Hxml.
    + exfalso. revert Hrun. unfold get_manifest_files. run_step. rewrite Htruthy. run_step.
      unfold reset_files in Hxml. now rewrite Hxml.
    + exfalso. revert Hrun. unfold get_manifest_files. run_step. rewrite Htruthy. run_step.
      unfold reset_files in Hxml. now rewrite Hxml.
Qed.

(** A new instance on a readable, non-empty file whose decoded bytes
    parse: two levels of calls are enough for the whole load, which reads
    once, parses once and scans once. *)
Lemma get_manifest_files_on_new_instance fuel manifest_name raw buffer doc :
  read_file E (_manifest_path (init manifest_name)) = Ok raw ->
  raw <> [] ->
  spec_decode E raw = Ok buffer ->
  load_xml_from_buffer E buffer = Ok doc ->
  exists s',
    get_manifest_files E (S (S fuel)) (fresh manifest_name)
      = Returned (flat_map (declared_file E) (find_child_elements_by_match doc FILE_MATCH)) s'
    /\ count is_read (trace s') = 1
    /\ count is_parse (trace s') = 1
    /\ count is_find_files (trace s') = 1.
Proof.
  intros Hread Hne Hdecode Hparse.
  assert (Hxml : exists s1,
             get_manifest_xml E (S (S fuel)) (reset_files [] (fresh manifest_name))
             = Returned doc s1
             /\ trace s1 = (EvRead (_manifest_path (init manifest_name))
                              :: decode_events raw ++ [EvParse buffer])%list).
  { unfold get_manifest_xml. run_step.
    rewrite (@get_manifest_buffer_decodes_nonempty fuel
               (reset_files [] (fresh manifest_name)) raw eq_refl Hread Hne).
    cbv zeta. rewrite Hdecode. run_step. rewrite Hparse. run_step.
    eexists. split; [reflexivity|]. simpl. reflexivity. }
  destruct Hxml as (s1 & Hxml & Htr).
  eexists. split.
  - apply (get_manifest_files_computes (S (S fuel)) (fresh manifest_name) eq_refl Hxml).
  - simpl. rewrite Htr.
    change (EvRead ?p :: ?l ++ [EvParse ?b])%list
      with ([EvRead p] ++ l ++ [EvParse b])%list.
    change (EvFindFiles :: ?l) with ([EvFindFiles] ++ l)%list.
    assert (Hd : forall kind, kind (EvApplyDelta (skipn 4 raw)) = false ->
                 count kind (decode_events raw) = 0).
    { intros kind Hk. unfold decode_events.
      destruct (startswith raw DCM_HEADER); [|reflexivity].
      unfold count; cbn [filter]. now rewrite Hk. }
    repeat split; rewrite !count_app, Hd, count_skipped_prints by reflexivity; reflexivity.
Qed.

(** C10.  When the manifest file holds at least one byte,
    [get_manifest_buffer] on a new instance terminates, for every amount
    of fuel from 2 on, and has read the file exactly once.  The guarantee
    needs the file to be non-empty: on a file of zero bytes the call never
    terminates, and the number of reads grows with the depth it is allowed. *)
Theorem get_manifest_buffer_terminates_iff_file_nonempty manifest_name raw :
  read_file E (_manifest_path (init manifest_name)) = Ok raw ->
  (raw <> [] ->
   forall fuel, 2 <= fuel ->
     terminates (get_manifest_buffer E fuel (fresh manifest_name)) = true
     /\ count is_read (trace (final (get_manifest_buffer E fuel (fresh manifest_name)))) = 1)
  /\ (raw = [] ->
      forall fuel,
        terminates (get_manifest_buffer E fuel (fresh manifest_name)) = false
        /\ count is_read (trace (final (get_manifest_buffer E fuel (fresh manifest_name)))) = fuel).
Proof.
  intros Hread. split.
  - intros Hne fuel Hfuel.
    destruct fuel as [|[|fuel]]; try lia.
    rewrite (@get_manifest_buffer_decodes_nonempty fuel (fresh manifest_name) raw);
      [|reflexivity|exact Hread|exact Hne].
    cbv zeta. unfold decode_events.
    destruct (spec_decode E raw); destruct (startswith raw DCM_HEADER); simpl; auto.
  - intros -> fuel.
    destruct (@get_manifest_buffer_empty_diverges fuel (fresh manifest_name))
      as (s' & Hrun & Htr); [reflexivity | exact Hread |].
    rewrite Hrun. simpl. split; [reflexivity|].
    rewrite Htr. simpl. apply count_repeat_read.
Qed.

(** C2, with the input on which the code departs from it.  On a manifest
    file that holds at least one byte, the first [get_manifest_buffer] of
    an instance gives what decoding by the marker gives ([spec_decode]):
    the patched base for a buffer that starts with the marker, its error
    when the patch fails, the buffer itself otherwise.  A buffer of zero
    bytes does not start with the marker, so decoding should give it back
    unchanged; on a manifest file of zero bytes the method never returns. *)
Theorem get_manifest_buffer_decodes_unless_file_empty manifest_name raw :
  read_file E (_manifest_path (init manifest_name)) = Ok raw ->
  (raw <> [] ->
   forall fuel, 2 <= fuel ->
     match spec_decode E raw with
     | Ok decoded =>
         exists s', get_manifest_buffer E fuel (fresh manifest_name) = Returned decoded s'
     | Raise e =>
         exists s', get_manifest_buffer E fuel (fresh manifest_name) = Raised e s'
     end)
  /\ (raw = [] ->
      spec_decode E raw = Ok []
      /\ forall fuel, terminates (get_manifest_buffer E fuel (fresh manifest_name)) = false).
Proof.
  intros Hread. split.
  - intros Hne fuel Hfuel.
    destruct fuel as [|[|fuel]]; try lia.
    rewrite (@get_manifest_buffer_decodes_nonempty fuel (fresh manifest_name) raw);
      [|reflexivity|exact Hread|exact Hne].
    cbv zeta. destruct (spec_decode E raw); eexists; reflexivity.
  - intros ->. split; [reflexivity|]. intros fuel.
    destruct (@get_manifest_buffer_empty_diverges fuel (fresh manifest_name))
      as (s' & Hrun & _); [reflexivity | exact Hread |].
    now rewrite Hrun.
Qed.

(** C4, at the inputs on which the code departs from it.  An instance
    whose cached file list is empty does not take it for cached: the next
    call of [get_manifest_files] scans the document again (one more
    [EvFindFiles]), though nothing is read, decoded or parsed again.  And
    on a manifest file of zero bytes the accessor never returns, reading
    the file once more at each level of calls it is allowed. *)
Theorem get_manifest_files_cache_misses :
  (forall fuel s doc,
      _manifest_xml (self s) = Some doc ->
      _manifest_files (self s) = Some [] ->
      exists s',
        get_manifest_files E fuel s
          = Returned (flat_map (declared_file E)
                        (find_child_elements_by_match doc FILE_MATCH)) s'
        /\ count is_find_files (trace s') = S (count is_find_files (trace s))
        /\ count is_read (trace s') = count is_read (trace s)
        /\ count is_apply_delta (trace s') = count is_apply_delta (trace s)
        /\ count is_parse (trace s') = count is_parse (trace s))
  /\ (forall fuel manifest_name,
        read_file E (_manifest_path (init manifest_name)) = Ok [] ->
        terminates (get_manifest_files E fuel (fresh manifest_name)) = false
        /\ count is_read (trace (final (get_manifest_files E fuel (fresh manifest_name))))
           = fuel).
Proof.
  split.
  - intros fuel s doc Hxml Hfiles.
    destruct (get_manifest_files_recomputes fuel s Hxml Hfiles)
      as (s' & Hrun & _ & Hcounts).
    exists s'. split; [exact Hrun | exact Hcounts].
  - intros fuel manifest_name Hread.
    destruct (@get_manifest_files_empty_file_diverges fuel (fresh manifest_name))
      as (s' & Hrun & Htr); [reflexivity | reflexivity | reflexivity | exact Hread |].
    rewrite Hrun. simpl. split; [reflexivity|].
    rewrite Htr. simpl. apply count_repeat_read.
Qed.

(** C8.  Once the document of a manifest is available, [get_manifest_files]
    returns, without raising, the paths of the file declarations that have
    both attributes, in document order: a declaration without its
    directory or without its file name adds nothing, and every other one
    adds its expanded, joined and normalized path. *)
Theorem get_manifest_files_skips_partial_declarations fuel s doc s1 :
  truthy_list (_manifest_files (self s)) = false ->
  get_manifest_xml E fuel s = Returned doc s1 ->
  let file_elements := find_child_elements_by_match doc FILE_MATCH in
  exists files s2,
    get_manifest_files E fuel s = Returned files s2
    /\ files = flat_map (declared_file E) file_elements
    /\ (forall e, In e file_elements ->
          dict_get (attrib e) "destinationPath" = None \/ dict_get (attrib e) "name" = None ->
          declared_file E e = [])
    /\ (forall e dir file_name, In e file_elements ->
          dict_get (attrib e) "destinationPath" = Some dir ->
          dict_get (attrib e) "name" = Some file_name ->
          declared_file E e = [normpath E (expandvars E (re_sub dir) ++ "\" ++ file_name)]
          /\ In (normpath E (expandvars E (re_sub dir) ++ "\" ++ file_name)) files).
Proof.
  intros Hfalsy Hxml file_elements.
  assert (Hx : get_manifest_xml E fuel (reset_files [] s) = Returned doc (reset_files [] s1))
    by (rewrite get_manifest_xml_ignores_files, Hxml; reflexivity).
  do 2 eexists. split; [apply get_manifest_files_computes; [exact Hfalsy | exact Hx]|].
  split; [reflexivity|]. split.
  - intros e _ [H|H]; unfold declared_file; rewrite H; [reflexivity|].
    now destruct (dict_get (attrib e) "destinationPath").
  - intros e dir file_name Hin Hd Hn.
    assert (Hdecl : declared_file E e
                    = [normpath E (expandvars E (re_sub dir) ++ "\" ++ file_name)])
      by (unfold declared_file; now rewrite Hd, Hn).
    split; [exact Hdecl|].
    apply in_flat_map. exists e. split; [exact Hin|]. rewrite Hdecl. now left.
Qed.

End ManifestFacts.

(* ===================================================================== *)
(** * Properties of the path-variable expander *)
(* ===================================================================== *)

Lemma take_name_intro name after :
  no_close_paren name -> take_name (name ++ String ")" after) = Some (name, after).
Proof.
  unfold no_close_paren.
  induction name as [|c name IH]; intros Hno; simpl in *.
  - reflexivity.
  - destruct (Ascii.eqb c ")") eqn:Hc.
    + apply Ascii.eqb_eq in Hc. subst. exfalso. apply Hno. now left.
    + rewrite IH; [reflexivity|]. intros Hin. apply Hno. now right.
Qed.

Lemma take_name_elim s :
  forall name after,
    take_name s = Some (name, after) ->
    no_close_paren name /\ s = name ++ ")" ++ after.
Proof.
  unfold no_close_paren.
  induction s as [|c s IH]; intros name after H; simpl in H; [discriminate|].
  destruct (Ascii.eqb c ")") eqn:Hc.
  - apply Ascii.eqb_eq in Hc. inversion H; subst. split; [intros []|reflexivity].
  - destruct (take_name s) as [[n a]|]; [|discriminate].
    inversion H; subst. destruct (IH _ _ eq_refl) as (Hno & ->).
    split; [|reflexivity].
    simpl. intros [Heq|Hin]; [|now apply Hno].
    subst c. now rewrite Ascii.eqb_refl in Hc.
Qed.

Lemma match_token_intro name after :
  name <> "" -> no_close_paren name ->
  match_token ("$(" ++ name ++ ")" ++ after) = Some (name, after).
Proof.
  intros Hne Hno. simpl. rewrite take_name_intro by exact Hno.
  destruct name; [congruence | reflexivity].
Qed.

Lemma match_token_elim s name after :
  match_token s = Some (name, after) ->
  name <> "" /\ no_close_paren name /\ s = "$(" ++ name ++ ")" ++ after.
Proof.
  unfold match_token. destruct s as [|c0 [|c1 rest]]; try discriminate.
  destruct (Ascii.eqb c0 "$") eqn:H0; [|discriminate].
  destruct (Ascii.eqb c1 "(") eqn:H1; [|discriminate]. simpl.
  apply Ascii.eqb_eq in H0, H1. subst.
  destruct (take_name rest) as [[[|c n] a]|] eqn:T; try discriminate.
  intros H; inversion H; subst.
  apply take_name_elim in T. destruct T as (Hno & ->).
  split; [discriminate|]. split; [exact Hno | reflexivity].
Qed.

Lemma match_token_none s :
  ~ starts_with_token s -> match_token s = None.
Proof.
  intros Hno. destruct (match_token s) as [[name after]|] eqn:H; [|reflexivity].
  exfalso. apply Hno. exists name, after. now apply match_token_elim.
Qed.

(** The two steps of the scan. *)
Lemma re_sub_token s name after :
  match_token s = Some (name, after) -> re_sub s = replace name ++ re_sub after.
Proof.
  intros H. destruct s as [|c rest]; [discriminate|].
  simp re_sub.
  destruct (inspect (match_token (String c rest))) as [[[n a]|] e]; simp re_sub.
  - rewrite H in e. inversion e; subst. reflexivity.
  - rewrite H in e. discriminate.
Qed.

Lemma re_sub_char c rest :
  match_token (String c rest) = None -> re_sub (String c rest) = String c (re_sub rest).
Proof.
  intros H. simp re_sub.
  destruct (inspect (match_token (String c rest))) as [[[n a]|] e]; simp re_sub.
  - rewrite H in e. discriminate.
  - reflexivity.
Qed.

(** Text without a dollar sign is copied. *)
Lemma re_sub_plain_prefix pre s :
  no_dollar pre -> re_sub (pre ++ s) = pre ++ re_sub s.
Proof.
  unfold no_dollar.
  induction pre as [|c pre IH]; intros Hno; [reflexivity|].
  cbn [append]. rewrite re_sub_char.
  - rewrite IH; [reflexivity|]. intros Hin. apply Hno. now right.
  - unfold match_token. destruct (pre ++ s); [reflexivity|].
    destruct (Ascii.eqb c "$") eqn:Hc; [|reflexivity].
    apply Ascii.eqb_eq in Hc. subst. exfalso. apply Hno. now left.
Qed.

(** C5.  The expander is a total function of its input: it first rewrites
    the string token by token, then hands the result to the environment
    expansion.  A token [$(name)] after text without a dollar sign becomes
    the table's value for the lower-cased name when the table has one and
    stays as it is otherwise, the text before it is copied, and the
    rewriting goes on after the token; where no token starts, one
    character is copied and the rewriting goes on at the next. *)
Theorem expand_manifest_path_variables_substitutes_known_keeps_unknown (E : Env) :
  (forall s, expand_manifest_path_variables E s = expandvars E (re_sub s))
  /\ re_sub "" = ""
  /\ (forall pre name after,
        no_dollar pre -> name <> "" -> no_close_paren name ->
        re_sub (pre ++ "$(" ++ name ++ ")" ++ after)
        = pre ++ match dict_get PACKAGE_VARIABLES (lower name) with
                 | Some value => value
                 | None => "$(" ++ name ++ ")"
                 end ++ re_sub after)
  /\ (forall c rest,
        ~ starts_with_token (String c rest) ->
        re_sub (String c rest) = String c (re_sub rest)).
Proof.
  split; [reflexivity|]. split; [reflexivity|]. split.
  - intros pre name after Hpre Hne Hno.
    rewrite re_sub_plain_prefix by exact Hpre.
    rewrite (@re_sub_token _ name after) by (now apply match_token_intro).
    reflexivity.
  - intros c rest Hno. apply re_sub_char, match_token_none, Hno.
Qed.

(* ===================================================================== *)
(** * Properties of the file-list search *)
(* ===================================================================== *)

Lemma lower_upper_ascii c : lower_ascii (upper_ascii c) = lower_ascii c.
Proof. destruct c as [[] [] [] [] [] [] [] []]; reflexivity. Qed.

Lemma lower_lower_ascii c : lower_ascii (lower_ascii c) = lower_ascii c.
Proof. destruct c as [[] [] [] [] [] [] [] []]; reflexivity. Qed.

Lemma lower_upper s : lower (upper s) = lower s.
Proof. induction s as [|c s IH]; simpl; [reflexivity|]. now rewrite lower_upper_ascii, IH. Qed.

Lemma lower_lower s : lower (lower s) = lower s.
Proof. induction s as [|c s IH]; simpl; [reflexivity|]. now rewrite lower_lower_ascii, IH. Qed.

(** ASCII text stays ASCII under the two mappings. *)
Lemma isascii_upper s : isascii s = true -> isascii (upper s) = true.
Proof.
  induction s as [|c s IH]; simpl; [reflexivity|]. intros H.
  apply andb_true_iff in H. destruct H as (Hc & Hs). rewrite (IH Hs), andb_true_r.
  revert Hc. destruct c as [[] [] [] [] [] [] [] []]; vm_compute; congruence.
Qed.

Lemma isascii_lower s : isascii s = true -> isascii (lower s) = true.
Proof.
  induction s as [|c s IH]; simpl; [reflexivity|]. intros H.
  apply andb_true_iff in H. destruct H as (Hc & Hs). rewrite (IH Hs), andb_true_r.
  revert Hc. destruct c as [[] [] [] [] [] [] [] []]; vm_compute; congruence.
Qed.

(** The loop finds a path exactly when one has the candidate's lower-cased
    form. *)
Lemma search_manifest_files_iff to_lower manifest_files file_to_search :
  search_manifest_files to_lower manifest_files file_to_search = true
  <-> exists f, In f manifest_files /\ to_lower f = to_lower file_to_search.
Proof.
  induction manifest_files as [|f fs IH]; simpl.
  - split; [discriminate | intros (f & [] & _)].
  - destruct (String.eqb (to_lower f) (to_lower file_to_search)) eqn:Heq.
    + apply String.eqb_eq in Heq. split; [|reflexivity]. intros _. exists f. auto.
    + apply String.eqb_neq in Heq. rewrite IH. split.
      * intros (g & Hin & Hg). exists g. auto.
      * intros (g & [<-|Hin] & Hg); [contradiction|]. exists g. auto.
Qed.

Lemma search_manifest_files_lower to_lower manifest_files a c :
  to_lower a = to_lower c ->
  search_manifest_files to_lower manifest_files a
  = search_manifest_files to_lower manifest_files c.
Proof.
  intros H. induction manifest_files as [|f fs IH]; simpl; [reflexivity|].
  now rewrite H, IH.
Qed.

(** C9, as amended.  Whatever file list the manifest gives,
    [is_file_in_manifest_files] returns true exactly when some path of the
    list has the same [str.lower] form as the candidate.  For a candidate
    of ASCII characters, on which [str.lower] is the ASCII mapping, a
    candidate that differs from it in letter case only (its upper-cased
    or lower-cased form among them) gets the same answer. *)
Theorem is_file_in_manifest_files_ignores_ascii_case
    (E : Env) fuel s manifest_files s' candidate :
  get_manifest_files E fuel s = Returned manifest_files s' ->
  exists found,
    is_file_in_manifest_files E fuel candidate s = Returned found s'
    /\ (found = true
        <-> exists f, In f manifest_files /\ str_lower E f = str_lower E candidate)
    /\ ((forall text, isascii text = true -> str_lower E text = lower text) ->
        isascii candidate = true ->
        (forall candidate',
           isascii candidate' = true ->
           lower candidate' = lower candidate ->
           is_file_in_manifest_files E fuel candidate' s = Returned found s')
        /\ is_file_in_manifest_files E fuel (upper candidate) s = Returned found s'
        /\ is_file_in_manifest_files E fuel (lower candidate) s = Returned found s').
Proof.
  intros Hfiles.
  assert (Hrun : forall c, is_file_in_manifest_files E fuel c s
                           = Returned (search_manifest_files (str_lower E) manifest_files c) s')
    by (intros c; unfold is_file_in_manifest_files, bind, ret; now rewrite Hfiles).
  exists (search_manifest_files (str_lower E) manifest_files candidate).
  split; [apply Hrun|]. split; [apply search_manifest_files_iff|].
  intros Hascii Hcandidate.
  assert (Hsame : forall c, isascii c = true -> lower c = lower candidate ->
            is_file_in_manifest_files E fuel c s
            = Returned (search_manifest_files (str_lower E) manifest_files candidate) s').
  { intros c Hc Hlower. rewrite Hrun. f_equal. apply search_manifest_files_lower.
    rewrite (Hascii c Hc), (Hascii candidate Hcandidate). exact Hlower. }
  split; [exact Hsame|].
  split; apply Hsame;
    [now apply isascii_upper | apply lower_upper | now apply isascii_lower | apply lower_lower].
Qed.

(* ===================================================================== *)
(** * The Manifest class on the small component store *)
(* ===================================================================== *)

Import demo demo_more.

(** The full document is read once and returned as it is; the file of zero
    bytes exhausts any fuel. *)
Lemma get_manifest_buffer_terminates_iff_file_nonempty_witness :
  (terminates (get_manifest_buffer demo_env 2 (fresh "plain")) = true
   /\ count is_read (trace (final (get_manifest_buffer demo_env 2 (fresh "plain")))) = 1)
  /\ (terminates (get_manifest_buffer demo_env 7 (fresh "empty")) = false
      /\ count is_read (trace (final (get_manifest_buffer demo_env 7 (fresh "empty")))) = 7).
Proof.
  split.
  - destruct (@get_manifest_buffer_terminates_iff_file_nonempty
                demo_env "plain" (b "P") eq_refl) as [H _].
    apply H; [discriminate | apply le_n].
  - destruct (@get_manifest_buffer_terminates_iff_file_nonempty
                demo_env "empty" [] eq_refl) as [_ H].
    apply H; reflexivity.
Defined.

(** The differential record decodes to the patched base; the file of zero
    bytes is never returned. *)
Lemma get_manifest_buffer_decodes_unless_file_empty_witness :
  (exists s', get_manifest_buffer demo_env 2 (fresh "delta") = Returned (b "BD") s')
  /\ (spec_decode demo_env [] = Ok []
      /\ forall fuel, terminates (get_manifest_buffer demo_env fuel (fresh "empty")) = false).
Proof.
  split.
  - destruct (@get_manifest_buffer_decodes_unless_file_empty
                demo_env "delta" (DCM_HEADER ++ b "D")%list eq_refl) as [H _].
    apply (H ltac:(discriminate) 2 (le_n 2)).
  - destruct (@get_manifest_buffer_decodes_unless_file_empty
                demo_env "empty" [] eq_refl) as [_ H].
    apply H. reflexivity.
Defined.

Lemma get_manifest_files_cache_misses_witness :
  (exists s',
      get_manifest_files demo_env 2 no_files_after_first_call = Returned [] s'
      /\ count is_find_files (trace s') = 2
      /\ count is_read (trace s') = 1
      /\ count is_apply_delta (trace s') = 0
      /\ count is_parse (trace s') = 1)
  /\ (terminates (get_manifest_files demo_env 9 (fresh "empty")) = false
      /\ count is_read (trace (final (get_manifest_files demo_env 9 (fresh "empty")))) = 9).
Proof.
  destruct (get_manifest_files_cache_misses demo_env) as (Hscan & Hloop).
  split.
  - exact (Hscan 2 no_files_after_first_call doc_no_files eq_refl eq_refl).
  - exact (Hloop 9 "empty" eq_refl).
Defined.

Lemma get_manifest_files_skips_partial_declarations_witness :
  exists files s2,
    get_manifest_files demo_env 2 (fresh "partial") = Returned files s2
    /\ files = ["%SystemRoot%\System32\foo.dll"].
Proof.
  destruct (@get_manifest_files_skips_partial_declarations demo_env 2 (fresh "partial")
              doc_partial (final (get_manifest_xml demo_env 2 (fresh "partial")))
              eq_refl eq_refl) as (files & s2 & Hrun & Hfiles & _).
  exists files, s2. split; [exact Hrun | exact Hfiles].
Defined.

(** On ASCII text the case mapping of the examples is the ASCII one. *)
Lemma demo_str_lower_ascii text :
  isascii text = true -> demo_str_lower text = lower text.
Proof.
  induction text as [|c tail IH]; [reflexivity|].
  intros H. simpl in H. apply andb_true_iff in H. destruct H as (Hc & Htail).
  cbn [demo_str_lower lower]. destruct tail as [|d rest]; [reflexivity|].
  assert (Hlead : (nat_of_ascii c =? 195)%nat = false).
  { apply Nat.ltb_lt in Hc. apply Nat.eqb_neq. lia. }
  rewrite Hlead. cbn [andb]. f_equal. exact (IH Htail).
Qed.

(** The list of [plain] holds [foo.dll]; it is found under another letter
    case, and under the upper-cased form of that. *)
Lemma is_file_in_manifest_files_ignores_ascii_case_witness :
  is_file_in_manifest_files demo_env 2 "%SYSTEMROOT%\system32\Foo.DLL" (fresh "plain")
  = Returned true (final (get_manifest_files demo_env 2 (fresh "plain")))
  /\ is_file_in_manifest_files demo_env 2 (upper "%SYSTEMROOT%\system32\Foo.DLL")
       (fresh "plain")
     = Returned true (final (get_manifest_files demo_env 2 (fresh "plain"))).
Proof.
  destruct (@is_file_in_manifest_files_ignores_ascii_case demo_env 2 (fresh "plain")
              ["%SystemRoot%\System32\foo.dll"; "%SystemRoot%\System32\Drivers\bar.sys"]
              (final (get_manifest_files demo_env 2 (fresh "plain")))
              "%SYSTEMROOT%\system32\Foo.DLL" eq_refl)
    as (found & Hrun & Hiff & Hcase).
  assert (Hfound : found = true).
  { apply Hiff. exists "%SystemRoot%\System32\foo.dll".
    split; [now left | vm_compute; reflexivity]. }
  destruct (Hcase demo_str_lower_ascii eq_refl) as (_ & Hupper & _).
  rewrite Hfound in Hrun, Hupper. split; [exact Hrun | exact Hupper].
Defined.

(** The list of [eszett] holds [straße.dll].  The candidate of the same
    spelling is found; its upper-cased form, [STRASSE.DLL], which
    lower-cases to [strasse.dll], is not. *)
Lemma is_file_in_manifest_files_case_change_counterexample :
  get_manifest_files more_env 2 (fresh "eszett")
  = Returned ["%SystemRoot%\System32\straße.dll"]
      (final (get_manifest_files more_env 2 (fresh "eszett")))
  /\ demo_str_upper "%SystemRoot%\System32\straße.dll"
     = "%SYSTEMROOT%\SYSTEM32\STRASSE.DLL"
  /\ is_file_in_manifest_files more_env 2 "%SystemRoot%\System32\straße.dll"
       (fresh "eszett")
     = Returned true (final (get_manifest_files more_env 2 (fresh "eszett")))
  /\ is_file_in_manifest_files more_env 2 "%SYSTEMROOT%\SYSTEM32\STRASSE.DLL"
       (fresh "eszett")
     = Returned false (final (get_manifest_files more_env 2 (fresh "eszett"))).
Proof. repeat split; vm_compute; reflexivity. Qed.

Lemma expand_manifest_path_variables_witness :
  re_sub "C:\x\$(Runtime.System32)\foo.dll"
  = "C:\x\" ++ "%SystemRoot%\System32" ++ re_sub "\foo.dll"
  /\ re_sub "$(bogus.var)" = "" ++ "$(bogus.var)" ++ re_sub ""
  /\ expand_manifest_path_variables demo_env "$(bogus.var)" = "$(bogus.var)".
Proof.
  destruct (expand_manifest_path_variables_substitutes_known_keeps_unknown demo_env)
    as (Hexp & Hnil & Htok & _).
  split; [|split].
  - apply (Htok "C:\x\" "Runtime.System32" "\foo.dll"); [|discriminate|];
      unfold no_dollar, no_close_paren; simpl; intuition discriminate.
  - apply (Htok "" "bogus.var" ""); [|discriminate|];
      unfold no_dollar, no_close_paren; simpl; intuition discriminate.
  - rewrite Hexp. reflexivity.
Defined.

(** The testable properties of the specification, on the small store. *)
Example expand_known_variable :
  expand_manifest_path_variables demo_env "$(runtime.system32)\foo.dll"
  = "%SystemRoot%\System32\foo.dll".
Proof. reflexivity. Qed.

Example expand_unknown_variable :
  expand_manifest_path_variables demo_env "$(bogus.var)" = "$(bogus.var)".
Proof. reflexivity. Qed.

Example expand_mixed :
  expand_manifest_path_variables demo_env "$(Runtime.INF)\$(x)$()$(runtime.help"
  = "%SystemRoot%\INF\$(x)$()$(runtime.help".
Proof. reflexivity. Qed.

Example decode_full_document :
  get_manifest_buffer demo_env 2 (fresh "plain")
  = Returned (b "P")
      {| self := with_buffer (b "P") (init "plain"); trace := [EvRead (path_of "plain")] |}.
Proof. reflexivity. Qed.

Example decode_differential_record :
  get_manifest_buffer demo_env 2 (fresh "delta")
  = Returned (b "BD")
      {| self := with_buffer (b "BD") (init "delta");
         trace := [EvRead (path_of "delta"); EvApplyDelta (b "D")] |}.
Proof. reflexivity. Qed.

(** A corrupt patch raises once; the next call hands out the record as if
    it were the document. *)
Example decode_corrupt_record_twice :
  let first := get_manifest_buffer demo_env 2 (fresh "corrupt") in
  first = Raised DeltaError (final first)
  /\ get_manifest_buffer demo_env 2 (final first)
     = Returned (DCM_HEADER ++ b "X")%list (final first).
Proof. split; reflexivity. Qed.

(** A file list that is not empty is computed once. *)
Example file_list_cached :
  let first := get_manifest_files demo_env 2 (fresh "plain") in
  get_manifest_files demo_env 2 (final first)
  = Returned ["%SystemRoot%\System32\foo.dll"; "%SystemRoot%\System32\Drivers\bar.sys"]
      (final first)
  /\ count is_find_files (trace (final first)) = 1.
Proof. split; reflexivity. Qed.

(* ===================================================================== *)
(** * Properties of the script *)
(* ===================================================================== *)

Lemma same_bytes_true_iff a b : same_bytes a b = true <-> a = b.
Proof. unfold same_bytes. destruct (list_eq_dec Byte.byte_eq_dec a b); split; congruence. Qed.

Lemma flat_map_singleton {A} (l : list A) : flat_map (fun c => [c]) l = l.
Proof. induction l as [|x l IH]; simpl; congruence. Qed.

Section ScriptFacts.

Variable W : World.

(** The entries of a document, before and after an append. *)
Lemma find_poq doc :
  find_child_elements_by_match doc POQ_MATCH = filter is_poq (children doc).
Proof. unfold POQ_MATCH, find_child_elements_by_match. apply flat_map_singleton. Qed.

Lemma filter_append_to_first child siblings :
  filter is_poq (append_to_first "POQ" child siblings)
  = match filter is_poq siblings with
    | [] => []
    | poq_element :: rest => append_child_element poq_element child :: rest
    end.
Proof.
  induction siblings as [|e rest IH]; simpl; [reflexivity|].
  unfold is_poq at 2. destruct (String.eqb (tag e) "POQ") eqn:He; simpl.
  - unfold is_poq at 1. simpl. now rewrite He.
  - unfold is_poq at 1. now rewrite He.
Qed.

Lemma poq_entries_append doc child :
  find_child_elements_by_match doc POQ_MATCH <> [] ->
  find_child_elements_by_match (append_to_poq doc child) POQ_MATCH <> []
  /\ poq_entries (append_to_poq doc child) = (poq_entries doc ++ [child])%list.
Proof.
  unfold poq_entries. rewrite !find_poq. unfold append_to_poq; simpl.
  rewrite filter_append_to_first.
  destruct (filter is_poq (children doc)) as [|poq_element rest]; [congruence|].
  intros _. split; [discriminate | reflexivity].
Qed.

(** The loop keeps the entries already queued and adds, in input order,
    one entry for each pair whose files differ. *)
Lemma craft_loop_spec update_files :
  forall downgrade_xml,
    find_child_elements_by_match downgrade_xml POQ_MATCH <> [] ->
    (forall uf, In uf update_files ->
       exists a b, file_contents W (full_path (source uf)) = Some a
                   /\ file_contents W (full_path (destination uf)) = Some b) ->
    exists crafted,
      craft_loop W update_files downgrade_xml = Ok crafted
      /\ poq_entries crafted
         = (poq_entries downgrade_xml
            ++ map replacement_entry (filter (contents_differ W) update_files))%list.
Proof.
  induction update_files as [|uf rest IH]; intros doc Hpoq Hread.
  - exists doc. split; [reflexivity | simpl; now rewrite app_nil_r].
  - destruct (Hread uf (or_introl eq_refl)) as (a & b0 & Ha & Hb).
    cbn [craft_loop filter]. unfold is_file_contents_equal, contents_differ.
    rewrite Ha, Hb. cbn [rbind].
    destruct (same_bytes a b0); cbn [negb].
    + apply IH; [exact Hpoq | intros; apply Hread; now right].
    + destruct (@poq_entries_append doc
                  (create_element "HardlinkFile" (to_hardlink_dict uf)) Hpoq)
        as (Hpoq' & Hentries).
      destruct (IH _ Hpoq' (fun u Hu => Hread u (or_intror Hu))) as (crafted & Hrun & Hc).
      exists crafted. split; [exact Hrun|].
      rewrite Hc, Hentries, <- app_assoc. reflexivity.
Qed.

(** C1.  When every pair's two files can be read, [craft_downgrade_xml]
    returns a queue document whose entries are those of the empty pending
    document followed by one replacement entry, naming the pair's source
    and destination paths, for each pair whose files differ byte for byte,
    in the order of the input; a pair whose files are identical adds no
    entry. *)
Theorem craft_downgrade_xml_queues_differing_pairs_in_order update_files :
  find_child_elements_by_match (get_empty_pending_xml W) POQ_MATCH <> [] ->
  (forall uf, In uf update_files ->
     exists a b, file_contents W (full_path (source uf)) = Some a
                 /\ file_contents W (full_path (destination uf)) = Some b) ->
  exists downgrade_xml,
    craft_downgrade_xml W update_files = Ok downgrade_xml
    /\ poq_entries downgrade_xml
       = (poq_entries (get_empty_pending_xml W)
          ++ map replacement_entry (filter (contents_differ W) update_files))%list
    /\ (forall uf, In uf update_files ->
          (contents_differ W uf = true
           <-> file_contents W (full_path (source uf))
               <> file_contents W (full_path (destination uf))))
    /\ (forall uf, replacement_entry uf
                   = Elem "HardlinkFile"
                       [("source", full_path (source uf));
                        ("destination", full_path (destination uf))] []).
Proof.
  intros Hpoq Hread.
  destruct (@craft_loop_spec update_files _ Hpoq Hread) as (crafted & Hrun & Hentries).
  exists crafted. split; [|split; [exact Hentries | split; [|reflexivity]]].
  - unfold craft_downgrade_xml.
    destruct (find_child_elements_by_match (get_empty_pending_xml W) POQ_MATCH);
      [congruence | exact Hrun].
  - intros uf Hin. destruct (Hread uf Hin) as (a & b0 & Ha & Hb).
    unfold contents_differ. rewrite Ha, Hb.
    destruct (same_bytes a b0) eqn:Hs; simpl.
    + apply same_bytes_true_iff in Hs. subst. split; [discriminate | congruence].
    + split; [|reflexivity]. intros _ Heq. inversion Heq; subst.
      assert (same_bytes b0 b0 = true) by now apply same_bytes_true_iff.
      congruence.
Qed.

(** Accepted requests are consumed one by one; what follows them is then
    processed with the list built so far. *)
Lemma parse_config_loop_accepted pre :
  Forall (accepted_request W) pre ->
  forall update_files, exists update_files',
    forall rest,
      parse_config_loop W (pre ++ rest) update_files
      = parse_config_loop W rest update_files'.
Proof.
  induction 1 as [|e pre (Hwf & Hmiss) _ IH]; intros acc.
  - exists acc. reflexivity.
  - destruct Hwf as (d & src & Hd & Hs).
    unfold destination_missing in Hmiss. rewrite Hd in Hmiss.
    cbn [parse_config_loop app]. rewrite Hd. cbn [rbind]. rewrite Hmiss, Hs. cbn [rbind].
    match goal with |- context [parse_config_loop W _ ?acc'] =>
      destruct (IH acc') as (acc'' & Hacc) end.
    exists acc''. exact Hacc.
Qed.

(** The loop stops at a request whose destination is missing. *)
Lemma parse_config_loop_missing request d rest update_files :
  get_element_attribute request "destination" = Ok d ->
  is_path_exists W (full_path (mkPath W d)) = false ->
  parse_config_loop W (request :: rest) update_files
  = Raise (FileNotFoundError (full_path (mkPath W d))).
Proof.
  intros Hd Hex. cbn [parse_config_loop]. rewrite Hd. cbn [rbind]. now rewrite Hex.
Qed.

(** The first element of a list with a property some element has. *)
Lemma first_such {A} (P : A -> bool) (l : list A) x :
  In x l -> P x = true ->
  exists pre first post,
    l = (pre ++ first :: post)%list /\ P first = true /\ Forall (fun e => P e = false) pre.
Proof.
  induction l as [|y l IH]; intros Hin Hx; [destruct Hin|].
  destruct (P y) eqn:Hy.
  - exists [], y, l. auto.
  - destruct Hin as [->|Hin]; [congruence|].
    destruct (IH Hin Hx) as (pre & first & post & -> & Hf & Hpre).
    exists (y :: pre), first, post. auto.
Qed.

(** With a missing destination among the requests the loop never returns
    a list, whatever the other requests are. *)
Lemma parse_config_loop_raises request elements :
  In request elements ->
  destination_missing W request = true ->
  forall update_files, exists e, parse_config_loop W elements update_files = Raise e.
Proof.
  intros Hin Hmiss.
  induction elements as [|x rest IH]; intros acc; [destruct Hin|].
  cbn [parse_config_loop].
  destruct (get_element_attribute x "destination") as [d|e] eqn:Hd; cbn [rbind];
    [|eexists; reflexivity].
  destruct (is_path_exists W (full_path (mkPath W d))) eqn:Hex; cbn [negb];
    [|eexists; reflexivity].
  destruct (get_element_attribute x "source") as [src|e]; cbn [rbind];
    [|eexists; reflexivity].
  destruct Hin as [->|Hin]; [|now apply IH].
  unfold destination_missing in Hmiss. rewrite Hd, Hex in Hmiss. discriminate.
Qed.

(** C7.  When a request of the input names a destination that does not
    exist, [parse_config_xml] raises and returns no list.  When the
    requests carry both attributes of the format, the error is
    [FileNotFoundError] for the first such request; the requests after it
    play no part (whatever they are, the outcome is the same), and lines
    113-117 of [main] stop with that error before anything is written. *)
Theorem parse_config_xml_aborts_on_missing_destination
    config_file_path config_xml request :
  load_xml W config_file_path = Ok config_xml ->
  In request (find_child_elements_by_match config_xml CONFIG_MATCH) ->
  destination_missing W request = true ->
  (exists e, parse_config_xml W config_file_path = Raise e)
  /\ (Forall well_formed_request (find_child_elements_by_match config_xml CONFIG_MATCH) ->
      exists pre first destination_file post,
        find_child_elements_by_match config_xml CONFIG_MATCH = (pre ++ first :: post)%list
        /\ Forall (fun e => destination_missing W e = false) pre
        /\ get_element_attribute first "destination" = Ok destination_file
        /\ is_path_exists W (full_path (mkPath W destination_file)) = false
        /\ parse_config_xml W config_file_path
           = Raise (FileNotFoundError (full_path (mkPath W destination_file)))
        /\ (forall post',
              parse_config_loop W (pre ++ first :: post') []
              = Raise (FileNotFoundError (full_path (mkPath W destination_file))))
        /\ (forall log,
              craft_from_config W config_file_path log
              = (Raise (FileNotFoundError (full_path (mkPath W destination_file))), log))).
Proof.
  intros Hload Hin Hmiss. split.
  { unfold parse_config_xml. rewrite Hload. cbn [rbind].
    now apply (parse_config_loop_raises request). }
  intros Hwf.
  destruct (first_such (destination_missing W) _ _ Hin Hmiss)
    as (pre & first & post & Hsplit & Hfirst & Hpre).
  unfold destination_missing in Hfirst.
  destruct (get_element_attribute first "destination") as [d|] eqn:Hd; [|discriminate].
  apply negb_true_iff in Hfirst.
  assert (Hacc : Forall (accepted_request W) pre).
  { rewrite Hsplit in Hwf. apply Forall_app in Hwf. destruct Hwf as (Hwf & _).
    rewrite Forall_forall in *. intros e He. split; auto. }
  destruct (parse_config_loop_accepted Hacc []) as (acc & Hloop).
  assert (Hany : forall post', parse_config_loop W (pre ++ first :: post') []
                               = Raise (FileNotFoundError (full_path (mkPath W d))))
    by (intros post'; rewrite Hloop; now apply parse_config_loop_missing).
  assert (Hparse : parse_config_xml W config_file_path
                   = Raise (FileNotFoundError (full_path (mkPath W d))))
    by (unfold parse_config_xml; rewrite Hload; cbn [rbind]; rewrite Hsplit; apply Hany).
  exists pre, first, d, post. repeat split; auto.
  intros log. unfold craft_from_config, run_bind, run_lift. now rewrite Hparse.
Qed.






(** The namespace [parse_args] returns. *)
Lemma parse_args_namespace cl args :
  parse_args cl = Ok args ->
  args = [ ("config_xml", match target cl with ConfigXml p => PStr p | _ => PNone end);
           ("custom_pending_xml",
            match target cl with CustomPendingXml p => PStr p | _ => PNone end);
           ("force_restart", PBool (force_restart cl));
           ("restart_timeout",
            PInt (match restart_timeout cl with
                  | TimeoutAbsent => 10%Z
                  | TimeoutOption t | TimeoutJoined t => t
                  end));
           ("elevate", PBool (elevate cl));
           ("invisible", PBool (invisible cl));
           ("persistent", PBool (persistent cl));
           ("irreversible", PBool (irreversible cl)) ].
Proof.
  unfold parse_args.
  destruct (restart_timeout_in_argv cl && negb (force_restart cl)); [discriminate|].
  intros H; inversion H; reflexivity.
Qed.

(** It holds the configuration path under [config_xml] and has no
    attribute [config_file]. *)
Lemma parse_args_sets_config_xml cl args path :
  parse_args cl = Ok args ->
  target cl = ConfigXml path -> getattr args "config_xml" = Ok (PStr path).
Proof.
  intros Hargs H. rewrite (parse_args_namespace cl Hargs).
  unfold getattr. simpl. now rewrite H.
Qed.



Lemma main_stops_in_parse_args cl seconds log :
  restart_timeout cl = TimeoutOption seconds ->
  force_restart cl = false ->
  main W cl log = (Raise (SystemExit 2), log).
Proof.
  intros Htimeout Hforce. unfold main, run_bind, run_lift, parse_args, restart_timeout_in_argv.
  now rewrite Htimeout, Hforce.
Qed.


(** The flags are checked after the queue document is written: a run whose
    namespace did carry [config_file] would refuse a flag only once the
    document is on disk. *)
Lemma main_with_checks_flags_after_writing args config_file log :
  getattr args "config_file" = Ok (PStr config_file) ->
  config_file <> "" ->
  is_path_exists W config_file = true ->
  getattr args "invisible" = Ok (PBool true) ->
  forall path log',
    craft_from_config W config_file log = (Ok path, log') ->
    main_with W args log = (Raise (NotImplementedError "Not implemented yet"), log').
Proof.
  intros Hc Hne Hex Hinv path log' Hcraft.
  unfold main_with, run_bind, run_lift, check_flag.
  rewrite Hc. simpl.
  destruct (String.eqb config_file "") eqn:He; [apply String.eqb_eq in He; congruence|].
  simpl. rewrite Hex. simpl. rewrite Hcraft, Hinv. reflexivity.
Qed.

End ScriptFacts.

(* ===================================================================== *)
(** * The script on the small live system *)
(* ===================================================================== *)

(** [bar.dll] equals its old version and is left out; [foo.dll] is queued. *)
Lemma craft_downgrade_xml_queues_differing_pairs_in_order_witness :
  exists downgrade_xml,
    craft_downgrade_xml demo_world demo_update_files = Ok downgrade_xml
    /\ poq_entries downgrade_xml
       = [ Elem "HardlinkFile" [("source", old_foo); ("destination", live_foo)] [] ].
Proof.
  destruct (@craft_downgrade_xml_queues_differing_pairs_in_order demo_world demo_update_files)
    as (doc & Hrun & Hentries & _).
  - discriminate.
  - intros uf [<-|[<-|[]]]; do 2 eexists; split; reflexivity.
  - exists doc. split; [exact Hrun | exact Hentries].
Defined.

(** The second request of [Missing.xml] names a file that does not exist. *)
Lemma parse_config_xml_aborts_on_missing_destination_witness :
  exists destination_file,
    parse_config_xml demo_world "Missing.xml"
    = Raise (FileNotFoundError (full_path (mkPath demo_world destination_file)))
    /\ is_path_exists demo_world (full_path (mkPath demo_world destination_file)) = false.
Proof.
  destruct (@parse_config_xml_aborts_on_missing_destination demo_world
              "Missing.xml" demo_config_missing (request old_bar gone))
    as (_ & Hfirst).
  - reflexivity.
  - right; left; reflexivity.
  - reflexivity.
  - destruct Hfirst as (pre & first & d & post & _ & _ & _ & Hex & Hparse & _).
    + repeat constructor; do 2 eexists; split; reflexivity.
    + exists d. split; [exact Hparse | exact Hex].
Defined.



(** A run with [--restart-timeout 5] and no [--force-restart] ends in
    [parse_args]. *)
Example main_refused_command_line :
  main demo_world
    {| target := ConfigXml "Config.xml";
       force_restart := false;
       restart_timeout := TimeoutOption 5;
       elevate := false;
       invisible := false;
       persistent := false;
       irreversible := false |} []
  = (Raise (SystemExit 2), []).
Proof. reflexivity. Qed.

(** A run with [--config-xml Config.xml] and nothing else, which meets no
    fatal condition, stops at the first statement of [main]'s body too. *)
Example main_demo_run :
  main demo_world (demo_command_line (ConfigXml "Config.xml") false) []
  = (Raise (AttributeError "config_file"), []).
Proof. reflexivity. Qed.

(* ===================================================================== *)
(** * Further properties of the Manifest class *)
(* ===================================================================== *)

Lemma startswith_split buffer prefix :
  startswith buffer prefix = true ->
  buffer = (prefix ++ skipn (List.length prefix) buffer)%list.
Proof.
  revert buffer. induction prefix as [|p prefix IH]; intros buffer H; [reflexivity|].
  destruct buffer as [|x buffer]; [discriminate|].
  simpl in H. apply andb_true_iff in H. destruct H as (Hx & Hrest).
  apply Byte.byte_dec_bl in Hx. subst. simpl. f_equal. now apply IH.
Qed.

Section MoreManifestFacts.

Variable E : Env.

Arguments get_manifest_buffer : simpl never.
Arguments find_child_elements_by_match : simpl never.

(** How [get_manifest_xml] can end. *)
Lemma get_manifest_xml_ends fuel s : xml_ends E (get_manifest_xml E fuel s).
Proof.
  unfold get_manifest_xml. run_step.
  destruct (_manifest_xml (self s)) as [doc|] eqn:Hxml; [exact Hxml|].
  pose proof (get_manifest_buffer_ends E fuel s) as Hb.
  destruct (get_manifest_buffer E fuel s) as [b1 s1|e1 s1|s1]; simpl in Hb.
  - destruct (load_xml_from_buffer E b1) as [doc|e] eqn:Hp; run_step;
      [reflexivity | right; right; eexists; exact Hp].
  - simpl. destruct Hb as [H|H]; [left | right; left]; exact H.
  - exact I.
Qed.

(** X1.  Once [get_manifest_buffer] has returned a buffer that is not
    empty, every later call on the instance returns the same buffer and
    does nothing else: no read, no patch, no change of the instance. *)
Theorem get_manifest_buffer_second_call_does_nothing fuel fuel' s buffer s1 :
  get_manifest_buffer E fuel s = Returned buffer s1 ->
  buffer <> [] ->
  get_manifest_buffer E (S fuel') s1 = Returned buffer s1.
Proof.
  intros Hrun Hne.
  pose proof (get_manifest_buffer_ends E fuel s) as Hends.
  rewrite Hrun in Hends. simpl in Hends.
  now apply get_manifest_buffer_cached.
Qed.

(** X2.  When the file holds a differential record and the patch fails,
    the call raises the patch error after one read and one patch attempt,
    and leaves the raw record in the buffer cache: the next call returns
    the record as it is on disk, marker included, without decoding it. *)
Theorem get_manifest_buffer_returns_raw_record_after_failed_patch fuel s raw e :
  truthy_bytes (_manifest_buffer (self s)) = false ->
  read_file E (_manifest_path (self s)) = Ok raw ->
  startswith raw DCM_HEADER = true ->
  apply_delta E (BASE_MANIFEST E) (skipn 4 raw) = Raise e ->
  exists s1,
    get_manifest_buffer E (S (S fuel)) s = Raised e s1
    /\ get_manifest_buffer E (S (S fuel)) s1 = Returned raw s1
    /\ count is_read (trace s1) = S (count is_read (trace s))
    /\ count is_apply_delta (trace s1) = S (count is_apply_delta (trace s)).
Proof.
  intros Hfalsy Hread Hdcm Hpatch.
  assert (Hne : raw <> []) by (intros ->; discriminate).
  rewrite (get_manifest_buffer_decodes_nonempty E fuel s Hfalsy Hread Hne).
  cbv zeta. unfold spec_decode, decode_events. rewrite Hdcm, Hpatch.
  eexists. split; [reflexivity|]. split.
  - apply get_manifest_buffer_cached; [reflexivity | exact Hne].
  - simpl.
    change (EvRead ?p :: ?l)%list with ([EvRead p] ++ l)%list.
    rewrite !count_app. unfold count; cbn [filter is_read is_apply_delta List.length].
    split; lia.
Qed.

(** X3.  When the patch of a differential record gives zero bytes, the
    call returns the empty buffer, and the empty buffer is not taken for
    cached: the next call reads the file and applies the patch again. *)
Theorem get_manifest_buffer_rereads_after_empty_patch_output fuel s raw :
  truthy_bytes (_manifest_buffer (self s)) = false ->
  read_file E (_manifest_path (self s)) = Ok raw ->
  startswith raw DCM_HEADER = true ->
  apply_delta E (BASE_MANIFEST E) (skipn 4 raw) = Ok [] ->
  exists s1 s2,
    get_manifest_buffer E (S (S fuel)) s = Returned [] s1
    /\ get_manifest_buffer E (S (S fuel)) s1 = Returned [] s2
    /\ count is_read (trace s1) = 1 + count is_read (trace s)
    /\ count is_read (trace s2) = 2 + count is_read (trace s)
    /\ count is_apply_delta (trace s2) = 2 + count is_apply_delta (trace s).
Proof.
  intros Hfalsy Hread Hdcm Hpatch.
  assert (Hne : raw <> []) by (intros ->; discriminate).
  assert (Hstep : forall s0,
            truthy_bytes (_manifest_buffer (self s0)) = false ->
            _manifest_path (self s0) = _manifest_path (self s) ->
            get_manifest_buffer E (S (S fuel)) s0
            = Returned []
                {| self := with_buffer [] (self s0);
                   trace := trace s0 ++ [EvRead (_manifest_path (self s));
                                         EvApplyDelta (skipn 4 raw)] |}).
  { intros s0 Hf Hp.
    assert (Hread0 : read_file E (_manifest_path (self s0)) = Ok raw) by now rewrite Hp.
    rewrite (get_manifest_buffer_decodes_nonempty E fuel s0 Hf Hread0 Hne).
    cbv zeta. unfold spec_decode, decode_events. rewrite Hdcm, Hpatch, Hp. reflexivity. }
  do 2 eexists. split; [apply Hstep; [exact Hfalsy | reflexivity]|].
  split; [apply Hstep; reflexivity|].
  simpl. rewrite !count_app. unfold count; cbn [filter is_read is_apply_delta List.length].
  repeat split; lia.
Qed.

(** X4.  An error of the file read is passed on and is not remembered:
    the instance is as it was, and the next call reads the file again. *)
Theorem get_manifest_buffer_read_error_is_not_cached fuel s e :
  truthy_bytes (_manifest_buffer (self s)) = false ->
  read_file E (_manifest_path (self s)) = Raise e ->
  exists s1 s2,
    get_manifest_buffer E (S fuel) s = Raised e s1
    /\ self s1 = self s
    /\ get_manifest_buffer E (S fuel) s1 = Raised e s2
    /\ count is_read (trace s2) = 2 + count is_read (trace s).
Proof.
  intros Hfalsy Hread.
  assert (Hstep : forall s0, self s0 = self s ->
            get_manifest_buffer E (S fuel) s0
            = Raised e {| self := self s;
                          trace := trace s0 ++ [EvRead (_manifest_path (self s))] |}).
  { intros [me tr] Hs. simpl in Hs. subst me.
    rewrite get_manifest_buffer_unfold. run_step.
    rewrite Hfalsy. run_step. rewrite Hread. reflexivity. }
  do 2 eexists. split; [apply Hstep; reflexivity|]. split; [reflexivity|].
  split; [apply Hstep; reflexivity|].
  simpl. rewrite !count_app. unfold count; cbn [filter is_read List.length]. lia.
Qed.

(** X5.  On a first load of a non-empty file, the patch is attempted
    exactly when the bytes start with the 4-byte marker, once, on exactly
    the bytes after the marker; any other buffer is returned as read,
    after the one read. *)
Theorem get_manifest_buffer_patches_marked_records_only fuel s raw :
  truthy_bytes (_manifest_buffer (self s)) = false ->
  read_file E (_manifest_path (self s)) = Ok raw ->
  raw <> [] ->
  let after := final (get_manifest_buffer E (S (S fuel)) s) in
  (startswith raw DCM_HEADER = true ->
   exists delta,
     raw = (DCM_HEADER ++ delta)%list
     /\ trace after
        = (trace s ++ [EvRead (_manifest_path (self s)); EvApplyDelta delta])%list)
  /\ (startswith raw DCM_HEADER = false ->
      trace after = (trace s ++ [EvRead (_manifest_path (self s))])%list
      /\ get_manifest_buffer E (S (S fuel)) s = Returned raw after).
Proof.
  intros Hfalsy Hread Hne after. subst after.
  rewrite (get_manifest_buffer_decodes_nonempty E fuel s Hfalsy Hread Hne).
  cbv zeta. unfold spec_decode, decode_events. split; intros Hdcm; rewrite Hdcm.
  - exists (skipn 4 raw). split; [exact (startswith_split raw DCM_HEADER Hdcm)|].
    destruct (apply_delta E (BASE_MANIFEST E) (skipn 4 raw)); reflexivity.
  - split; reflexivity.
Qed.

(** Reading, decoding and parsing leave the name, the path and the file
    list alone. *)
Lemma get_manifest_xml_frame fuel s :
  let s' := final (get_manifest_xml E fuel s) in
  _manifest_files (self s') = _manifest_files (self s)
  /\ _manifest_path (self s') = _manifest_path (self s)
  /\ _manifest_name (self s') = _manifest_name (self s).
Proof.
  unfold get_manifest_xml. run_step.
  destruct (_manifest_xml (self s)); [auto|].
  pose proof (get_manifest_buffer_frame E fuel s) as (Hf & _ & Hp & Hn).
  destruct (get_manifest_buffer E fuel s) as [b1 s1|e1 s1|s1]; simpl in *; auto.
  destruct (load_xml_from_buffer E b1); run_step; auto.
Qed.

(** X6.  However a call ends, [get_manifest_buffer] leaves the cached
    document and file list alone, [get_manifest_xml] leaves the file list
    alone, and none of the three accessors changes the name or the path
    of the instance. *)
Theorem accessors_fill_only_their_own_caches fuel s :
  let after_buffer := final (get_manifest_buffer E fuel s) in
  let after_xml := final (get_manifest_xml E fuel s) in
  let after_files := final (get_manifest_files E fuel s) in
  (_manifest_xml (self after_buffer) = _manifest_xml (self s)
   /\ _manifest_files (self after_buffer) = _manifest_files (self s)
   /\ _manifest_files (self after_xml) = _manifest_files (self s))
  /\ (_manifest_path (self after_buffer) = _manifest_path (self s)
      /\ _manifest_path (self after_xml) = _manifest_path (self s)
      /\ _manifest_path (self after_files) = _manifest_path (self s))
  /\ (_manifest_name (self after_buffer) = _manifest_name (self s)
      /\ _manifest_name (self after_xml) = _manifest_name (self s)
      /\ _manifest_name (self after_files) = _manifest_name (self s)).
Proof.
  intros after_buffer after_xml after_files.
  pose proof (get_manifest_buffer_frame E fuel s) as (Hbf & Hbx & Hbp & Hbn).
  pose proof (get_manifest_xml_frame fuel s) as (Hxf & Hxp & Hxn).
  assert (Hfiles : _manifest_path (self after_files) = _manifest_path (self s)
                   /\ _manifest_name (self after_files) = _manifest_name (self s)).
  { subst after_files.
    destruct (truthy_list (_manifest_files (self s))) eqn:Htruthy.
    - destruct (_manifest_files (self s)) as [[|f fs]|] eqn:Hfs; try discriminate.
      rewrite (get_manifest_files_cached E fuel s Hfs). auto.
    - pose proof (get_manifest_xml_frame fuel (reset_files [] s)) as (_ & Hp & Hn).
      destruct (get_manifest_xml E fuel (reset_files [] s)) as [doc s'|e s'|s'] eqn:Hxml;
        simpl in Hp, Hn.
      + rewrite (get_manifest_files_computes E fuel s Htruthy Hxml). simpl. auto.
      + unfold get_manifest_files. run_step. rewrite Htruthy. run_step.
        unfold reset_files in Hxml. rewrite Hxml. auto.
      + unfold get_manifest_files. run_step. rewrite Htruthy. run_step.
        unfold reset_files in Hxml. rewrite Hxml. auto. }
  intuition.
Qed.

(** X7.  Once [get_manifest_xml] has returned a document, every later
    call returns the same document and leaves the instance and the trace
    of its work untouched, whatever depth of calls it is allowed. *)
Theorem get_manifest_xml_second_call_does_nothing fuel fuel' s doc s1 :
  get_manifest_xml E fuel s = Returned doc s1 ->
  get_manifest_xml E fuel' s1 = Returned doc s1.
Proof.
  intros Hrun. apply get_manifest_xml_cached.
  now apply (get_manifest_xml_returns_cached E fuel s).
Qed.

(** X8.  A parse error is passed on and is not remembered, while the
    buffer stays cached: the next call parses the same bytes again and
    reads nothing. *)
Theorem get_manifest_xml_parse_error_is_not_cached fuel s buffer e :
  _manifest_xml (self s) = None ->
  _manifest_buffer (self s) = Some buffer ->
  buffer <> [] ->
  load_xml_from_buffer E buffer = Raise e ->
  exists s1 s2,
    get_manifest_xml E (S fuel) s = Raised e s1
    /\ self s1 = self s
    /\ get_manifest_xml E (S fuel) s1 = Raised e s2
    /\ count is_parse (trace s2) = 2 + count is_parse (trace s)
    /\ count is_read (trace s2) = count is_read (trace s).
Proof.
  intros Hxml Hbuf Hne Hparse.
  assert (Hstep : forall s0, self s0 = self s ->
            get_manifest_xml E (S fuel) s0
            = Raised e {| self := self s; trace := trace s0 ++ [EvParse buffer] |}).
  { intros [me tr] Hs. simpl in Hs. subst me.
    unfold get_manifest_xml. run_step. rewrite Hxml.
    rewrite (@get_manifest_buffer_cached E fuel {| self := self s; trace := tr |} buffer)
      by auto.
    run_step. rewrite Hparse. reflexivity. }
  do 2 eexists. split; [apply Hstep; reflexivity|]. split; [reflexivity|].
  split; [apply Hstep; reflexivity|].
  simpl. rewrite !count_app. unfold count; cbn [filter is_read is_parse List.length].
  split; lia.
Qed.

(** Nested calls that never end come from a file of zero bytes. *)
Lemma get_manifest_buffer_out_of_fuel fuel s s' :
  get_manifest_buffer E (S (S fuel)) s = OutOfFuel s' ->
  truthy_bytes (_manifest_buffer (self s)) = false
  /\ read_file E (_manifest_path (self s)) = Ok [].
Proof.
  intros Hrun. destruct (truthy_bytes (_manifest_buffer (self s))) eqn:Htruthy.
  - destruct (_manifest_buffer (self s)) as [[|x l]|] eqn:Hbuf; try discriminate.
    rewrite (@get_manifest_buffer_cached E (S fuel) s (x :: l) Hbuf) in Hrun
      by discriminate.
    discriminate.
  - split; [reflexivity|].
    destruct (read_file E (_manifest_path (self s))) as [raw|e] eqn:Hread.
    + destruct raw as [|x l]; [reflexivity|]. exfalso.
      rewrite (@get_manifest_buffer_decodes_nonempty E fuel s (x :: l) Htruthy Hread)
        in Hrun by discriminate.
      cbv zeta in Hrun. destruct (spec_decode E (x :: l)); discriminate.
    + exfalso. revert Hrun. rewrite get_manifest_buffer_unfold. run_step.
      rewrite Htruthy. run_step. rewrite Hread. discriminate.
Qed.

Lemma get_manifest_xml_out_of_fuel fuel s s' :
  get_manifest_xml E (S (S fuel)) s = OutOfFuel s' ->
  read_file E (_manifest_path (self s)) = Ok [].
Proof.
  unfold get_manifest_xml. run_step.
  destruct (_manifest_xml (self s)); [discriminate|].
  destruct (get_manifest_buffer E (S (S fuel)) s) as [b1 s1|e1 s1|s1] eqn:Hbuf.
  - destruct (load_xml_from_buffer E b1); run_step; discriminate.
  - discriminate.
  - intros _. exact (proj2 (get_manifest_buffer_out_of_fuel fuel s Hbuf)).
Qed.

(** X9.  With depth for its nested calls, a call of [get_manifest_files]
    ends in one of three ways.  It returns the list it has stored.  It
    raises what the file read, the patch or the parser raised (a partial
    declaration never raises), and leaves the instance with an empty
    file list.  Or its nested calls never end (a [RecursionError] of the
    interpreter), which happens only on a file of zero bytes, and the
    instance is left with an empty file list too. *)
Theorem get_manifest_files_fails_as_loading_fails fuel s :
  match get_manifest_files E (S (S fuel)) s with
  | Returned files s' => _manifest_files (self s') = Some files
  | Raised e s' =>
      _manifest_files (self s') = Some []
      /\ ((exists path, read_file E path = Raise e)
          \/ (exists delta, apply_delta E (BASE_MANIFEST E) delta = Raise e)
          \/ (exists buffer, load_xml_from_buffer E buffer = Raise e))
  | OutOfFuel s' =>
      _manifest_files (self s') = Some []
      /\ read_file E (_manifest_path (self s)) = Ok []
  end.
Proof.
  destruct (truthy_list (_manifest_files (self s))) eqn:Htruthy.
  - destruct (_manifest_files (self s)) as [[|f fs]|] eqn:Hfs; try discriminate.
    rewrite (get_manifest_files_cached E (S (S fuel)) s Hfs). exact Hfs.
  - pose proof (get_manifest_xml_frame (S (S fuel)) (reset_files [] s)) as (Hf & _).
    pose proof (get_manifest_xml_ends (S (S fuel)) (reset_files [] s)) as Hends.
    destruct (get_manifest_xml E (S (S fuel)) (reset_files [] s)) as [doc s1|e1 s1|s1]
      eqn:Hxml; simpl in Hf, Hends.
    + rewrite (get_manifest_files_computes E (S (S fuel)) s Htruthy Hxml). reflexivity.
    + unfold get_manifest_files. run_step. rewrite Htruthy. run_step.
      unfold reset_files in Hxml. rewrite Hxml. split; [exact Hf | exact Hends].
    + pose proof (get_manifest_xml_out_of_fuel fuel (reset_files [] s) Hxml) as Hread.
      unfold get_manifest_files. run_step. rewrite Htruthy. run_step.
      unfold reset_files in Hxml. rewrite Hxml. split; [exact Hf | exact Hread].
Qed.

(** Each file declaration gives one path or one print. *)
Lemma declared_or_skipped file_elements :
  List.length (flat_map (declared_file E) file_elements)
  + count is_print (flat_map (skipped_prints E) file_elements)
  = List.length file_elements.
Proof.
  induction file_elements as [|x l IH]; [reflexivity|].
  cbn [flat_map]. rewrite length_app, count_app. unfold skipped_prints at 1.
  assert (Hone : List.length (declared_file E x) <= 1).
  { unfold declared_file.
    destruct (dict_get (attrib x) "destinationPath");
      destruct (dict_get (attrib x) "name"); simpl; lia. }
  destruct (declared_file E x) as [|p ps]; unfold count at 1; simpl in *; lia.
Qed.

(** X10.  When the list is computed, every file declaration of the
    document is accounted for: it gives one path of the list or one
    diagnostic print, so the paths and the prints together are as many as
    the declarations. *)
Theorem get_manifest_files_lists_or_reports_every_declaration fuel s doc s1 :
  truthy_list (_manifest_files (self s)) = false ->
  get_manifest_xml E fuel s = Returned doc s1 ->
  exists files s2,
    get_manifest_files E fuel s = Returned files s2
    /\ List.length files + (count is_print (trace s2) - count is_print (trace s1))
       = List.length (find_child_elements_by_match doc FILE_MATCH)
    /\ List.length files <= List.length (find_child_elements_by_match doc FILE_MATCH).
Proof.
  intros Hfalsy Hxml.
  assert (Hx : get_manifest_xml E fuel (reset_files [] s) = Returned doc (reset_files [] s1))
    by (rewrite get_manifest_xml_ignores_files, Hxml; reflexivity).
  do 2 eexists. split; [apply get_manifest_files_computes; [exact Hfalsy | exact Hx]|].
  cbv zeta. simpl.
  change (EvFindFiles :: ?l)%list with ([EvFindFiles] ++ l)%list.
  rewrite !count_app.
  pose proof (declared_or_skipped (find_child_elements_by_match doc FILE_MATCH)) as Hsum.
  unfold count at 2. cbn [filter is_print List.length]. lia.
Qed.

(** Once a call of [get_manifest_files] has returned, the instance holds
    the list; when the list is empty it also holds the document, which
    declares no complete file. *)
Lemma get_manifest_files_settles fuel s files s1 :
  get_manifest_files E fuel s = Returned files s1 ->
  _manifest_files (self s1) = Some files
  /\ (files = [] ->
      exists doc, _manifest_xml (self s1) = Some doc
        /\ flat_map (declared_file E) (find_child_elements_by_match doc FILE_MATCH) = []).
Proof.
  intros Hrun.
  destruct (truthy_list (_manifest_files (self s))) eqn:Htruthy.
  - destruct (_manifest_files (self s)) as [[|f fs]|] eqn:Hfiles; try discriminate.
    rewrite (get_manifest_files_cached E fuel s Hfiles) in Hrun. inversion Hrun; subst.
    split; [exact Hfiles | discriminate].
  - destruct (get_manifest_xml E fuel (reset_files [] s)) as [doc s'|e s'|s'] eqn:Hxml.
    + rewrite (get_manifest_files_computes E fuel s Htruthy Hxml) in Hrun.
      cbv zeta in Hrun. inversion Hrun; subst. split; [reflexivity|].
      intros Hempty. exists doc. split; [|exact Hempty].
      simpl. now apply get_manifest_xml_returns_cached in Hxml.
    + exfalso. revert Hrun. unfold get_manifest_files. run_step. rewrite Htruthy. run_step.
      unfold reset_files in Hxml. now rewrite Hxml.
    + exfalso. revert Hrun. unfold get_manifest_files. run_step. rewrite Htruthy. run_step.
      unfold reset_files in Hxml. now rewrite Hxml.
Qed.

(** One more call on an instance that holds its list. *)
Lemma get_manifest_files_next_call fuel files s1 :
  _manifest_files (self s1) = Some files ->
  (files = [] ->
   exists doc, _manifest_xml (self s1) = Some doc
     /\ flat_map (declared_file E) (find_child_elements_by_match doc FILE_MATCH) = []) ->
  exists s2,
    get_manifest_files E fuel s1 = Returned files s2
    /\ _manifest_files (self s2) = Some files
    /\ (files = [] ->
        exists doc, _manifest_xml (self s2) = Some doc
          /\ flat_map (declared_file E) (find_child_elements_by_match doc FILE_MATCH) = [])
    /\ count is_read (trace s2) = count is_read (trace s1)
    /\ count is_apply_delta (trace s2) = count is_apply_delta (trace s1)
    /\ count is_parse (trace s2) = count is_parse (trace s1)
    /\ (files <> [] -> s2 = s1)
    /\ (files = [] -> count is_find_files (trace s2) = S (count is_find_files (trace s1))).
Proof.
  intros Hfiles Hdoc. destruct files as [|f fs].
  - destruct (Hdoc eq_refl) as (doc & Hxml & Hnone).
    assert (Hc : get_manifest_xml E fuel (reset_files [] s1) = Returned doc (reset_files [] s1))
      by (apply get_manifest_xml_cached; exact Hxml).
    pose proof (@get_manifest_files_computes E fuel s1 doc (reset_files [] s1)) as Hrun.
    cbv zeta in Hrun. rewrite Hnone in Hrun.
    eexists. split; [apply Hrun; [now rewrite Hfiles | exact Hc]|].
    simpl. split; [reflexivity|]. split; [intros _; exists doc; auto|].
    change (EvFindFiles :: ?l) with ([EvFindFiles] ++ l)%list.
    repeat split; try congruence;
      rewrite !count_app, count_skipped_prints by reflexivity;
      unfold count at 2; simpl; lia.
  - exists s1. rewrite (get_manifest_files_cached E fuel s1 Hfiles).
    repeat split; auto; discriminate.
Qed.

(** X11.  After a call of [get_manifest_files] has returned, any number
    of further calls return the same list without reading, patching or
    parsing; with a list that is not empty they leave the instance
    untouched, and with an empty list each of them scans the document
    once more. *)
Theorem get_manifest_files_repeated_calls_load_nothing fuel calls s files s1 :
  get_manifest_files E fuel s = Returned files s1 ->
  exists s2,
    get_manifest_files_repeated E fuel calls s1 = Returned files s2
    /\ count is_read (trace s2) = count is_read (trace s1)
    /\ count is_apply_delta (trace s2) = count is_apply_delta (trace s1)
    /\ count is_parse (trace s2) = count is_parse (trace s1)
    /\ (files <> [] -> s2 = s1)
    /\ (files = [] ->
        count is_find_files (trace s2) = S calls + count is_find_files (trace s1)).
Proof.
  intros Hrun. apply get_manifest_files_settles in Hrun. destruct Hrun as (Hfiles & Hdoc).
  clear s. revert s1 Hfiles Hdoc.
  induction calls as [|calls IH]; intros s1 Hfiles Hdoc.
  - destruct (get_manifest_files_next_call fuel s1 Hfiles Hdoc)
      as (s2 & Hrun & _ & _ & Hr & Hd & Hp & Hsame & Hscan).
    exists s2. cbn [get_manifest_files_repeated]. repeat split; auto.
  - destruct (get_manifest_files_next_call fuel s1 Hfiles Hdoc)
      as (s2 & Hrun & Hfiles2 & Hdoc2 & Hr & Hd & Hp & Hsame & Hscan).
    destruct (IH s2 Hfiles2 Hdoc2) as (s3 & Hrun3 & Hr3 & Hd3 & Hp3 & Hsame3 & Hscan3).
    exists s3. cbn [get_manifest_files_repeated]. unfold bind. rewrite Hrun.
    split; [exact Hrun3|]. repeat split; try congruence.
    + intros Hne. rewrite (Hsame3 Hne). auto.
    + intros Hempty. rewrite (Hscan3 Hempty), (Hscan Hempty). lia.
Qed.

(** X12.  Two searches in a row on one instance answer from the same
    file list, and the second loads nothing: the reads, patches and
    parses are those of the first call of [get_manifest_files]. *)
Theorem search_twice_loads_once fuel s files s1 first_file second_file :
  get_manifest_files E fuel s = Returned files s1 ->
  exists s2,
    search_twice E fuel first_file second_file s
    = Returned (search_manifest_files (str_lower E) files first_file,
                search_manifest_files (str_lower E) files second_file) s2
    /\ count is_read (trace s2) = count is_read (trace s1)
    /\ count is_apply_delta (trace s2) = count is_apply_delta (trace s1)
    /\ count is_parse (trace s2) = count is_parse (trace s1)
    /\ (files <> [] -> s2 = s1).
Proof.
  intros Hrun.
  destruct (get_manifest_files_settles fuel s Hrun) as (Hfiles & Hdoc).
  destruct (get_manifest_files_next_call fuel s1 Hfiles Hdoc)
    as (s2 & Hrun2 & _ & _ & Hr & Hd & Hp & Hsame & _).
  exists s2. unfold search_twice, is_file_in_manifest_files, bind, ret.
  rewrite Hrun, Hrun2. repeat split; auto.
Qed.

End MoreManifestFacts.

(* ===================================================================== *)
(** * Further properties of the path expander *)
(* ===================================================================== *)

Lemma append_empty_r (s : string) : s ++ "" = s.
Proof. induction s as [|c s IH]; simpl; [reflexivity | now rewrite IH]. Qed.

Lemma take_name_none s : no_close_paren s -> take_name s = None.
Proof.
  unfold no_close_paren.
  induction s as [|c s IH]; intros Hno; simpl in *; [reflexivity|].
  destruct (Ascii.eqb c ")") eqn:Hc.
  - apply Ascii.eqb_eq in Hc. subst. exfalso. apply Hno. now left.
  - rewrite IH; [reflexivity|]. intros Hin. apply Hno. now right.
Qed.

Lemma re_sub_no_close_paren s : no_close_paren s -> re_sub s = s.
Proof.
  induction s as [|c s IH]; intros Hno; [reflexivity|].
  assert (Hrest : no_close_paren s).
  { intros Hin. apply Hno. simpl. now right. }
  rewrite re_sub_char; [rewrite IH by exact Hrest; reflexivity|].
  unfold match_token. destruct s as [|c1 rest]; [reflexivity|].
  destruct (Ascii.eqb c "$" && Ascii.eqb c1 "("); [|reflexivity].
  rewrite take_name_none; [reflexivity|].
  intros Hin. apply Hrest. simpl. now right.
Qed.

Lemma lower_ascii_close_paren c : lower_ascii c = ")"%char -> c = ")"%char.
Proof.
  destruct c as [[] [] [] [] [] [] [] []]; vm_compute; intros H;
    first [reflexivity | congruence].
Qed.



(** X13.  A string without a dollar sign, or without a closing parenthesis,
    holds no token: the expander hands it to the environment expansion as
    it is.  An opening [$(] that is never closed is no token. *)
Theorem expand_manifest_path_variables_keeps_text_without_tokens (E : Env) s :
  no_dollar s \/ no_close_paren s ->
  expand_manifest_path_variables E s = expandvars E s.
Proof.
  intros H. unfold expand_manifest_path_variables. f_equal.
  destruct H as [H|H].
  - pose proof (@re_sub_plain_prefix s "" H) as Hp.
    change (re_sub "") with "" in Hp. rewrite !append_empty_r in Hp. exact Hp.
  - now apply re_sub_no_close_paren.
Qed.


(* ===================================================================== *)
(** * Further properties of the script *)
(* ===================================================================== *)

Section MoreScriptFacts.

Variable W : World.

(** A list the loop returns was built request by request. *)
Lemma parse_config_loop_ok elements :
  forall update_files result_files,
    parse_config_loop W elements update_files = Ok result_files ->
    Forall (accepted_request W) elements
    /\ exists built,
         result_files = (update_files ++ built)%list
         /\ Forall2 (built_from W) elements built.
Proof.
  induction elements as [|x rest IH]; intros acc res Hrun.
  - simpl in Hrun. inversion Hrun; subst. split; [constructor|].
    exists []. rewrite app_nil_r. split; [reflexivity | constructor].
  - cbn [parse_config_loop] in Hrun.
    destruct (get_element_attribute x "destination") as [d|e] eqn:Hd;
      cbn [rbind] in Hrun; [|discriminate].
    destruct (is_path_exists W (full_path (mkPath W d))) eqn:Hex;
      cbn [negb] in Hrun; [|discriminate].
    destruct (get_element_attribute x "source") as [src|e] eqn:Hs;
      cbn [rbind] in Hrun; [|discriminate].
    destruct (IH _ _ Hrun) as (Hacc & built & Hres & Hbuilt).
    split.
    + constructor; [|exact Hacc]. split; [exists d, src; auto|].
      unfold destination_missing. rewrite Hd, Hex. reflexivity.
    + eexists (_ :: built). split; [rewrite Hres, <- app_assoc; reflexivity|].
      constructor; [|exact Hbuilt]. exists d, src. simpl. repeat split; auto.
      destruct (is_path_exists W (full_path (mkPath W src))); reflexivity.
Qed.

Lemma parse_config_loop_total elements :
  Forall (accepted_request W) elements ->
  forall update_files, exists result_files,
    parse_config_loop W elements update_files = Ok result_files.
Proof.
  intros Hacc acc.
  destruct (@parse_config_loop_accepted W elements Hacc acc) as (acc' & Hrun).
  exists acc'. specialize (Hrun []). rewrite app_nil_r in Hrun. exact Hrun.
Qed.

(** X15.  [parse_config_xml] returns a list exactly when every request of the
    document carries both attributes and names a destination that
    exists; the list then holds one update file per request, in document
    order, built from the request's two paths, marked for retrieval
    exactly when its source does not exist, and never marked persisted. *)
Theorem parse_config_xml_builds_one_update_file_per_request config_file_path config_xml :
  load_xml W config_file_path = Ok config_xml ->
  (Forall (accepted_request W) (find_child_elements_by_match config_xml CONFIG_MATCH) ->
   exists update_files, parse_config_xml W config_file_path = Ok update_files)
  /\ (forall update_files,
        parse_config_xml W config_file_path = Ok update_files ->
        Forall (accepted_request W) (find_child_elements_by_match config_xml CONFIG_MATCH)
        /\ Forall2 (built_from W)
             (find_child_elements_by_match config_xml CONFIG_MATCH) update_files).
Proof.
  intros Hload. unfold parse_config_xml. rewrite Hload. cbn [rbind]. split.
  - intros Hacc. now apply parse_config_loop_total.
  - intros update_files Hrun.
    destruct (parse_config_loop_ok _ _ Hrun) as (Hacc & built & Hres & Hbuilt).
    simpl in Hres. subst. auto.
Qed.

(** X16.  The first request the loop does not accept decides the error, and the
    destination is looked at before the source: without a destination
    attribute the attribute error is raised; with a destination that does
    not exist [FileNotFoundError] is raised, whether or not the request
    has a source; only with an existing destination does a missing source
    attribute raise. *)
Theorem parse_config_xml_checks_destination_before_source
    config_file_path config_xml pre request post :
  load_xml W config_file_path = Ok config_xml ->
  find_child_elements_by_match config_xml CONFIG_MATCH = (pre ++ request :: post)%list ->
  Forall (accepted_request W) pre ->
  (forall e, get_element_attribute request "destination" = Raise e ->
     parse_config_xml W config_file_path = Raise e)
  /\ (forall d, get_element_attribute request "destination" = Ok d ->
        is_path_exists W (full_path (mkPath W d)) = false ->
        parse_config_xml W config_file_path
        = Raise (FileNotFoundError (full_path (mkPath W d))))
  /\ (forall d e, get_element_attribute request "destination" = Ok d ->
        is_path_exists W (full_path (mkPath W d)) = true ->
        get_element_attribute request "source" = Raise e ->
        parse_config_xml W config_file_path = Raise e).
Proof.
  intros Hload Hsplit Hpre. unfold parse_config_xml. rewrite Hload. cbn [rbind].
  rewrite Hsplit.
  destruct (@parse_config_loop_accepted W pre Hpre []) as (acc & Hrun).
  rewrite Hrun. cbn [parse_config_loop]. repeat split.
  - intros e Hd. now rewrite Hd.
  - intros d Hd Hex. rewrite Hd. cbn [rbind]. now rewrite Hex.
  - intros d e Hd Hex Hs. rewrite Hd. cbn [rbind]. rewrite Hex, Hs. reflexivity.
Qed.

(** The append reaches the first [POQ] element and nothing else. *)
Lemma append_to_first_split child pre poq_element post :
  Forall (fun e => is_poq e = false) pre ->
  is_poq poq_element = true ->
  append_to_first "POQ" child (pre ++ poq_element :: post)
  = (pre ++ append_child_element poq_element child :: post)%list.
Proof.
  intros Hpre Hpoq. induction Hpre as [|e pre He _ IH]; simpl.
  - unfold is_poq in Hpoq. now rewrite Hpoq.
  - unfold is_poq in He. now rewrite He, IH.
Qed.

Lemma craft_loop_shape update_files :
  forall t a pre poq_element post,
    Forall (fun e => is_poq e = false) pre ->
    is_poq poq_element = true ->
    (forall uf, In uf update_files ->
       exists c d, file_contents W (full_path (source uf)) = Some c
                   /\ file_contents W (full_path (destination uf)) = Some d) ->
    craft_loop W update_files (Elem t a (pre ++ poq_element :: post))
    = Ok (Elem t a
            (pre ++ Elem (tag poq_element) (attrib poq_element)
                      (children poq_element
                       ++ map replacement_entry (filter (contents_differ W) update_files))
                 :: post))%list.
Proof.
  induction update_files as [|uf rest IH]; intros t a pre poq post Hpre Hpoq Hread.
  - simpl. rewrite app_nil_r. destruct poq; reflexivity.
  - destruct (Hread uf (or_introl eq_refl)) as (c & d & Hc & Hd).
    cbn [craft_loop filter]. unfold is_file_contents_equal, contents_differ.
    rewrite Hc, Hd. cbn [rbind].
    destruct (same_bytes c d); cbn [negb].
    + apply IH; auto. intros; apply Hread; now right.
    + unfold append_to_poq. cbn [tag attrib children].
      rewrite append_to_first_split by assumption.
      rewrite IH; auto; [|intros; apply Hread; now right].
      cbn [append_child_element tag attrib children map].
      rewrite <- app_assoc. reflexivity.
Qed.

(** X17.  When the pairs can be read, the queue document is the empty pending
    document with the entries of the differing pairs added at the end of
    its first [POQ] element: the root's tag and attributes, the other
    children (a second [POQ] among them) and the first [POQ]'s own
    attributes and earlier entries are as they were. *)
Theorem craft_downgrade_xml_changes_first_poq_only update_files :
  find_child_elements_by_match (get_empty_pending_xml W) POQ_MATCH <> [] ->
  (forall uf, In uf update_files ->
     exists c d, file_contents W (full_path (source uf)) = Some c
                 /\ file_contents W (full_path (destination uf)) = Some d) ->
  exists pre poq_element post,
    children (get_empty_pending_xml W) = (pre ++ poq_element :: post)%list
    /\ Forall (fun e => is_poq e = false) pre
    /\ is_poq poq_element = true
    /\ craft_downgrade_xml W update_files
       = Ok (Elem (tag (get_empty_pending_xml W)) (attrib (get_empty_pending_xml W))
               (pre ++ Elem (tag poq_element) (attrib poq_element)
                         (children poq_element
                          ++ map replacement_entry
                               (filter (contents_differ W) update_files))
                    :: post))%list.
Proof.
  intros Hpoq Hread. unfold craft_downgrade_xml.
  destruct (find_child_elements_by_match (get_empty_pending_xml W) POQ_MATCH)
    as [|x xs] eqn:Hfind; [congruence|]. clear Hpoq.
  rewrite find_poq in Hfind.
  assert (Hx : In x (filter is_poq (children (get_empty_pending_xml W))))
    by (rewrite Hfind; now left).
  apply filter_In in Hx. destruct Hx as (Hin & Hx).
  destruct (first_such is_poq _ _ Hin Hx) as (pre & poq & post & Hsplit & Hp & Hpre).
  exists pre, poq, post. repeat split; auto.
  destruct (get_empty_pending_xml W) as [t a ch]. simpl in Hsplit. subst ch.
  now apply craft_loop_shape.
Qed.

Lemma craft_loop_identical update_files downgrade_xml :
  Forall (contents_equal W) update_files ->
  craft_loop W update_files downgrade_xml = Ok downgrade_xml.
Proof.
  induction 1 as [|uf rest (contents & Hs & Hd) _ IH]; [reflexivity|].
  cbn [craft_loop]. unfold is_file_contents_equal. rewrite Hs, Hd. cbn [rbind].
  assert (Hsame : same_bytes contents contents = true) by now apply same_bytes_true_iff.
  rewrite Hsame. exact IH.
Qed.

(** X18.  When the two files of every pair hold the same bytes, every pair is
    skipped and the queue document is the empty pending document itself. *)
Theorem craft_downgrade_xml_identical_pairs_queue_nothing update_files :
  find_child_elements_by_match (get_empty_pending_xml W) POQ_MATCH <> [] ->
  Forall (contents_equal W) update_files ->
  craft_downgrade_xml W update_files = Ok (get_empty_pending_xml W).
Proof.
  intros Hpoq Hsame. unfold craft_downgrade_xml.
  destruct (find_child_elements_by_match (get_empty_pending_xml W) POQ_MATCH);
    [congruence|].
  now apply craft_loop_identical.
Qed.

(** X19.  Lines 113-117 of [main] write the document in one step, once it is
    fully crafted: a run of them that fails, at whatever stage, leaves
    nothing behind, and one that succeeds has written exactly one file,
    at [DOWNGRADE_XML_PATH], holding the crafted document. *)
Theorem craft_from_config_writes_all_or_nothing config_file log :
  match craft_from_config W config_file log with
  | (Raise e, log') =>
      log' = log
      /\ (parse_config_xml W config_file = Raise e
          \/ (exists update_files,
                parse_config_xml W config_file = Ok update_files
                /\ (retrieve_oldest_files_for_update_files W update_files = Raise e
                    \/ exists resolved,
                         retrieve_oldest_files_for_update_files W update_files = Ok resolved
                         /\ craft_downgrade_xml W resolved = Raise e)))
  | (Ok downgrade_xml_path, log') =>
      downgrade_xml_path = DOWNGRADE_XML_PATH
      /\ exists update_files resolved downgrade_xml,
           parse_config_xml W config_file = Ok update_files
           /\ retrieve_oldest_files_for_update_files W update_files = Ok resolved
           /\ craft_downgrade_xml W resolved = Ok downgrade_xml
           /\ log' = (log ++ [Wrote DOWNGRADE_XML_PATH downgrade_xml])%list
  end.
Proof.
  unfold craft_from_config, run_bind, run_lift, run_do, run_ret.
  destruct (parse_config_xml W config_file) as [update_files|e] eqn:Hparse; [|auto].
  destruct (retrieve_oldest_files_for_update_files W update_files) as [resolved|e]
    eqn:Hresolve.
  - destruct (craft_downgrade_xml W resolved) as [downgrade_xml|e] eqn:Hcraft.
    + split; [reflexivity|]. exists update_files, resolved, downgrade_xml. auto.
    + split; [reflexivity|]. right. exists update_files. split; [reflexivity|].
      right. exists resolved. auto.
  - split; [reflexivity|]. right. exists update_files. auto.
Qed.

(** One flag: it lets the run go on untouched, or stops it untouched. *)
Lemma check_flag_cases args flag log :
  (check_flag args flag log = (Ok tt, log)
   /\ exists v, getattr args flag = Ok v /\ truthy v = false)
  \/ (exists e, check_flag args flag log = (Raise e, log)
      /\ (getattr args flag = Raise e
          \/ (e = NotImplementedError "Not implemented yet"
              /\ exists v, getattr args flag = Ok v /\ truthy v = true))).
Proof.
  unfold check_flag, run_bind, run_lift, run_raise, run_ret.
  destruct (getattr args flag) as [v|e] eqn:Hget.
  - destruct (truthy v) eqn:Hv.
    + right. eexists. split; [reflexivity|]. right. split; [reflexivity|]. exists v. auto.
    + left. split; [reflexivity|]. exists v. auto.
  - right. exists e. auto.
Qed.

(** What lines 113-117 leave behind. *)
Lemma craft_from_config_effects config_file log r log1 :
  craft_from_config W config_file log = (r, log1) ->
  (exists e, r = Raise e /\ log1 = log)
  \/ (exists downgrade_xml,
        r = Ok DOWNGRADE_XML_PATH
        /\ log1 = (log ++ [Wrote DOWNGRADE_XML_PATH downgrade_xml])%list).
Proof.
  unfold craft_from_config, run_bind, run_lift, run_do, run_ret.
  destruct (parse_config_xml W config_file) as [update_files|e];
    [|intros H; inversion H; subst; left; eauto].
  destruct (retrieve_oldest_files_for_update_files W update_files) as [resolved|e];
    [|intros H; inversion H; subst; left; eauto].
  destruct (craft_downgrade_xml W resolved) as [downgrade_xml|e];
    intros H; inversion H; subst; [right | left]; eauto.
Qed.

Lemma filter_is_queued_wrote log path downgrade_xml :
  filter is_queued (log ++ [Wrote path downgrade_xml]) = filter is_queued log.
Proof. rewrite filter_app. simpl. apply app_nil_r. Qed.

(** The flag checks one after the other; [finish] closes the goals where
    a check has stopped the run. *)
Ltac check_flags args finish :=
  repeat match goal with
         | |- context [check_flag args ?flag ?l] =>
             let e := fresh "e" in
             let v := fresh "v" in
             let Hrun := fresh "Hrun" in
             let Hget := fresh "Hget" in
             let Hv := fresh "Hv" in
             destruct (check_flag_cases args flag l)
               as [(Hrun & v & Hget & Hv)|(e & Hrun & [Hget|(-> & v & Hget & Hv)])];
             rewrite Hrun; [|solve [finish] ..]
         end.

(** X20.  A flag of the four that is set stops the run, in either branch,
    before the update is queued: nothing is pended and the machine is
    not restarted. *)
Theorem main_with_set_flag_queues_nothing args flag v log :
  In flag REFUSED_FLAGS ->
  getattr args flag = Ok v ->
  truthy v = true ->
  exists e log',
    main_with W args log = (Raise e, log')
    /\ filter is_queued log' = filter is_queued log.
Proof.
  intros Hin Hflag Htruthy.
  assert (Hflags : forall log1,
            filter is_queued log1 = filter is_queued log ->
            forall rest : Run unit,
            exists e log',
              (let (r, l) := check_flag args "invisible" log1 in
               match r with
               | Ok _ =>
                   let (r, l) := check_flag args "persistent" l in
                   match r with
                   | Ok _ =>
                       let (r, l) := check_flag args "irreversible" l in
                       match r with
                       | Ok _ =>
                           let (r, l) := check_flag args "elevate" l in
                           match r with
                           | Ok _ => rest l
                           | Raise e => (Raise e, l)
                           end
                       | Raise e => (Raise e, l)
                       end
                   | Raise e => (Raise e, l)
                   end
               | Raise e => (Raise e, l)
               end) = (Raise e, log')
              /\ filter is_queued log' = filter is_queued log).
  { intros log1 Hlog1 rest.
    check_flags args ltac:(eauto).
    exfalso. unfold REFUSED_FLAGS in Hin. simpl in Hin.
    destruct Hin as [<-|[<-|[<-|[<-|[]]]]]; congruence. }
  unfold main_with, run_bind, run_lift, run_raise, run_ret, run_do.
  destruct (getattr args "config_file") as [config_file|e]; [|eauto].
  destruct (truthy config_file).
  - destruct (as_str config_file) as [path|e]; [|eauto].
    destruct (is_path_exists W path); cbn [negb]; [|eauto].
    destruct (craft_from_config W path log) as [r log1] eqn:Hcraft.
    destruct (craft_from_config_effects _ _ Hcraft) as [(e & -> & ->)|(doc & -> & ->)];
      [eauto|].
    apply Hflags. apply filter_is_queued_wrote.
  - destruct (getattr args "custom_pending_xml") as [custom|e]; [|eauto].
    destruct (as_str custom) as [path|e]; [|eauto].
    destruct (is_path_exists W path); cbn [negb]; [|eauto].
    apply Hflags. reflexivity.
Qed.

(** X21.  On a namespace that carries [config_file], with an existing
    configuration from which the document can be crafted, a set flag of
    the four is refused only after the document has been written: the run
    ends with [NotImplementedError] and the file is on disk. *)
Theorem main_with_refuses_flags_after_writing args config_file flag log path log' :
  getattr args "config_file" = Ok (PStr config_file) ->
  config_file <> "" ->
  is_path_exists W config_file = true ->
  craft_from_config W config_file log = (Ok path, log') ->
  (forall f, In f REFUSED_FLAGS -> exists b, getattr args f = Ok (PBool b)) ->
  In flag REFUSED_FLAGS ->
  getattr args flag = Ok (PBool true) ->
  main_with W args log = (Raise (NotImplementedError "Not implemented yet"), log')
  /\ exists downgrade_xml,
       log' = (log ++ [Wrote DOWNGRADE_XML_PATH downgrade_xml])%list.
Proof.
  intros Hc Hne Hex Hcraft Hbools Hin Hflag. split.
  - unfold main_with, run_bind, run_lift. rewrite Hc. simpl.
    destruct (String.eqb config_file "") eqn:He; [apply String.eqb_eq in He; congruence|].
    simpl. rewrite Hex. simpl. rewrite Hcraft.
    check_flags args ltac:(first [reflexivity
                                 | exfalso;
                                   match goal with
                                   | H : getattr args ?f = Raise _ |- _ =>
                                       destruct (Hbools f) as (? & ?);
                                       [unfold REFUSED_FLAGS; simpl; tauto | congruence]
                                   end]).
    exfalso. unfold REFUSED_FLAGS in Hin. simpl in Hin.
    destruct Hin as [<-|[<-|[<-|[<-|[]]]]];
      match goal with
      | H : getattr args ?f = Ok ?v, H' : getattr args ?f = Ok (PBool true) |- _ =>
          rewrite H' in H; inversion H; subst; discriminate
      end.
  - destruct (craft_from_config_effects _ _ Hcraft) as [(e & He & _)|(doc & _ & ->)];
      [discriminate | eauto].
Qed.





End MoreScriptFacts.

(* ===================================================================== *)
(** * The further properties on the small component store *)
(* ===================================================================== *)

Import demo_more.

(** The decoded record of [delta] is returned again, with no depth left
    for a load. *)
Lemma get_manifest_buffer_second_call_does_nothing_witness :
  get_manifest_buffer demo_env 1 (final (get_manifest_buffer demo_env 2 (fresh "delta")))
  = Returned (b "BD") (final (get_manifest_buffer demo_env 2 (fresh "delta"))).
Proof.
  apply (@get_manifest_buffer_second_call_does_nothing demo_env 2 0 (fresh "delta")).
  - reflexivity.
  - discriminate.
Defined.

(** The record of [corrupt] comes back undecoded on the second call. *)
Lemma get_manifest_buffer_returns_raw_record_after_failed_patch_witness :
  exists s1,
    get_manifest_buffer demo_env 2 (fresh "corrupt") = Raised DeltaError s1
    /\ get_manifest_buffer demo_env 2 s1 = Returned (DCM_HEADER ++ b "X")%list s1.
Proof.
  destruct (@get_manifest_buffer_returns_raw_record_after_failed_patch
              demo_env 0 (fresh "corrupt") (DCM_HEADER ++ b "X")%list DeltaError
              eq_refl eq_refl eq_refl eq_refl)
    as (s1 & Hfirst & Hsecond & _).
  exists s1. split; [exact Hfirst | exact Hsecond].
Defined.

(** The patch of [hollow] gives no bytes: two calls, two reads. *)
Lemma get_manifest_buffer_rereads_after_empty_patch_output_witness :
  exists s1 s2,
    get_manifest_buffer more_env 2 (fresh "hollow") = Returned [] s1
    /\ get_manifest_buffer more_env 2 s1 = Returned [] s2
    /\ count is_read (trace s2) = 2.
Proof.
  destruct (@get_manifest_buffer_rereads_after_empty_patch_output
              more_env 0 (fresh "hollow") (DCM_HEADER ++ b "E")%list
              eq_refl eq_refl eq_refl eq_refl)
    as (s1 & s2 & Hfirst & Hsecond & _ & Hreads & _).
  exists s1, s2. split; [exact Hfirst|]. split; [exact Hsecond | exact Hreads].
Defined.

(** No manifest is called [absent]: each call reads, and fails, again. *)
Lemma get_manifest_buffer_read_error_is_not_cached_witness :
  exists s1 s2,
    get_manifest_buffer demo_env 1 (fresh "absent")
    = Raised (FileNotFoundError (path_of "absent")) s1
    /\ get_manifest_buffer demo_env 1 s1
       = Raised (FileNotFoundError (path_of "absent")) s2
    /\ count is_read (trace s2) = 2.
Proof.
  destruct (@get_manifest_buffer_read_error_is_not_cached
              demo_env 0 (fresh "absent") (FileNotFoundError (path_of "absent"))
              eq_refl eq_refl)
    as (s1 & s2 & Hfirst & _ & Hsecond & Hreads).
  exists s1, s2. split; [exact Hfirst|]. split; [exact Hsecond | exact Hreads].
Defined.

(** The record of [delta]: the patch gets the one byte after the marker. *)
Lemma get_manifest_buffer_patches_marked_records_only_witness :
  exists delta,
    (DCM_HEADER ++ b "D")%list = (DCM_HEADER ++ delta)%list
    /\ trace (final (get_manifest_buffer demo_env 2 (fresh "delta")))
       = [EvRead (path_of "delta"); EvApplyDelta delta].
Proof.
  pose proof (@get_manifest_buffer_patches_marked_records_only
                demo_env 0 (fresh "delta") (DCM_HEADER ++ b "D")%list
                eq_refl eq_refl) as H.
  cbv zeta in H. destruct H as (Hmarked & _); [discriminate|].
  exact (Hmarked eq_refl).
Defined.

(** The document of [plain] is returned again, with no depth at all. *)
Lemma get_manifest_xml_second_call_does_nothing_witness :
  get_manifest_xml demo_env 0 (final (get_manifest_xml demo_env 2 (fresh "plain")))
  = Returned doc_two_files (final (get_manifest_xml demo_env 2 (fresh "plain"))).
Proof.
  apply (@get_manifest_xml_second_call_does_nothing demo_env 2 0 (fresh "plain")).
  reflexivity.
Defined.

(** The bytes of [garbled] do not parse: they are parsed at each call and
    read once. *)
Lemma get_manifest_xml_parse_error_is_not_cached_witness :
  exists s1 s2,
    get_manifest_xml more_env 1 (final (get_manifest_buffer more_env 2 (fresh "garbled")))
    = Raised ParseError s1
    /\ get_manifest_xml more_env 1 s1 = Raised ParseError s2
    /\ count is_parse (trace s2) = 2
    /\ count is_read (trace s2) = 1.
Proof.
  destruct (@get_manifest_xml_parse_error_is_not_cached
              more_env 0 (final (get_manifest_buffer more_env 2 (fresh "garbled")))
              (b "Z") ParseError eq_refl eq_refl)
    as (s1 & s2 & Hfirst & _ & Hsecond & Hparses & Hreads);
    [discriminate | reflexivity |].
  exists s1, s2. split; [exact Hfirst|]. split; [exact Hsecond|].
  split; [exact Hparses | exact Hreads].
Defined.

(** The file list of [corrupt] ends with the patch error and that of
    [empty] in calls that never end, both with an empty list stored. *)
Example get_manifest_files_two_failures :
  (exists s', get_manifest_files demo_env 2 (fresh "corrupt") = Raised DeltaError s'
              /\ _manifest_files (self s') = Some [])
  /\ (exists s', get_manifest_files demo_env 7 (fresh "empty") = OutOfFuel s'
                 /\ _manifest_files (self s') = Some []).
Proof. split; eexists; split; reflexivity. Qed.

(** The document of [partial] holds three declarations: one path, two
    prints. *)
Lemma get_manifest_files_lists_or_reports_every_declaration_witness :
  exists files s2,
    get_manifest_files demo_env 2 (fresh "partial") = Returned files s2
    /\ List.length files
       + (count is_print (trace s2)
          - count is_print (trace (final (get_manifest_xml demo_env 2 (fresh "partial")))))
       = 3.
Proof.
  destruct (@get_manifest_files_lists_or_reports_every_declaration
              demo_env 2 (fresh "partial") doc_partial
              (final (get_manifest_xml demo_env 2 (fresh "partial"))) eq_refl eq_refl)
    as (files & s2 & Hrun & Hsum & _).
  exists files, s2. split; [exact Hrun | exact Hsum].
Defined.

(** Three more calls on the manifest that declares no file: one read in
    all, four scans. *)
Lemma get_manifest_files_repeated_calls_load_nothing_witness :
  exists s2,
    get_manifest_files_repeated demo_env 2 2 no_files_after_first_call = Returned [] s2
    /\ count is_read (trace s2) = 1
    /\ count is_find_files (trace s2) = 4.
Proof.
  destruct (@get_manifest_files_repeated_calls_load_nothing
              demo_env 2 2 (fresh "nofiles") [] no_files_after_first_call eq_refl)
    as (s2 & Hrun & Hreads & _ & _ & _ & Hscans).
  exists s2. split; [exact Hrun|]. split.
  - rewrite Hreads. reflexivity.
  - rewrite (Hscans eq_refl). reflexivity.
Defined.

(** Two searches in the list of [plain], in another letter case and for a
    file that is not listed: one read. *)
Lemma search_twice_loads_once_witness :
  exists s2,
    search_twice demo_env 2 "%SYSTEMROOT%\system32\FOO.DLL" "C:\other.dll" (fresh "plain")
    = Returned (true, false) s2
    /\ count is_read (trace s2) = 1.
Proof.
  destruct (@search_twice_loads_once
              demo_env 2 (fresh "plain")
              ["%SystemRoot%\System32\foo.dll"; "%SystemRoot%\System32\Drivers\bar.sys"]
              (final (get_manifest_files demo_env 2 (fresh "plain")))
              "%SYSTEMROOT%\system32\FOO.DLL" "C:\other.dll" eq_refl)
    as (s2 & Hrun & Hreads & _).
  exists s2. split; [exact Hrun|]. rewrite Hreads. reflexivity.
Defined.

(** A token that is never closed stays. *)
Lemma expand_manifest_path_variables_keeps_text_without_tokens_witness :
  expand_manifest_path_variables demo_env "$(runtime.windows\notepad.exe"
  = "$(runtime.windows\notepad.exe".
Proof.
  apply (@expand_manifest_path_variables_keeps_text_without_tokens
           demo_env "$(runtime.windows\notepad.exe").
  right. unfold no_close_paren. simpl. intuition discriminate.
Defined.


(** The two requests of [Config.xml] give two update files. *)
Lemma parse_config_xml_builds_one_update_file_per_request_witness :
  exists update_files,
    parse_config_xml demo_world "Config.xml" = Ok update_files
    /\ Forall2 (built_from demo_world)
         (find_child_elements_by_match demo_config CONFIG_MATCH) update_files.
Proof.
  destruct (@parse_config_xml_builds_one_update_file_per_request
              demo_world "Config.xml" demo_config eq_refl) as (Htotal & Hbuilt).
  destruct Htotal as (update_files & Hrun).
  - repeat constructor; do 2 eexists; split; reflexivity.
  - exists update_files. split; [exact Hrun | exact (proj2 (Hbuilt update_files Hrun))].
Defined.

(** The second request of [NoSource.xml] has an existing destination and
    no source; the third, whose destination is missing, is not reached. *)
Lemma parse_config_xml_checks_destination_before_source_witness :
  parse_config_xml more_world "NoSource.xml" = Raise XmlElementAttributeNotFound.
Proof.
  destruct (@parse_config_xml_checks_destination_before_source
              more_world "NoSource.xml" demo_config_no_source
              [request old_foo live_foo]
              (Elem "UpdateFile" [("destination", live_bar)] [])
              [request old_bar gone] eq_refl eq_refl)
    as (_ & _ & Hsource).
  - repeat constructor; do 2 eexists; split; reflexivity.
  - exact (Hsource live_bar XmlElementAttributeNotFound eq_refl eq_refl eq_refl).
Defined.

(** The document crafted for [Config.xml]: the second [POQ] is as it was. *)
Lemma craft_downgrade_xml_changes_first_poq_only_witness :
  craft_downgrade_xml demo_world demo_update_files
  = Ok (Elem "PendingTransaction" [("Version", "3.1")]
          [ Elem "POQ" [("postAction", "reboot")]
              [ Elem "HardlinkFile" [("source", old_foo); ("destination", live_foo)] [] ];
            Elem "POQ" [] [] ]).
Proof.
  destruct (@craft_downgrade_xml_changes_first_poq_only demo_world demo_update_files)
    as (pre & poq_element & post & Hsplit & Hpre & Hpoq & Hrun).
  - discriminate.
  - intros uf [<-|[<-|[]]]; do 2 eexists; split; reflexivity.
  - rewrite Hrun. destruct pre as [|e pre].
    + simpl in Hsplit. inversion Hsplit; subst. reflexivity.
    + exfalso. simpl in Hsplit. inversion Hsplit; subst.
      inversion Hpre; subst. discriminate.
Defined.

(** [bar.dll] equals its old version: nothing is queued for it. *)
Lemma craft_downgrade_xml_identical_pairs_queue_nothing_witness :
  craft_downgrade_xml demo_world
    [ {| source := mkPath demo_world old_bar; destination := mkPath demo_world live_bar;
         should_retrieve_oldest := false; persisted := false |} ]
  = Ok demo_empty_pending_xml.
Proof.
  apply (@craft_downgrade_xml_identical_pairs_queue_nothing demo_world).
  - discriminate.
  - constructor; [|constructor]. exists (b "S"). split; reflexivity.
Defined.

(** With [persistent] set nothing is queued. *)
Lemma main_with_set_flag_queues_nothing_witness :
  exists e log',
    main_with demo_world (namespace_with_config_file "persistent") [] = (Raise e, log')
    /\ filter is_queued log' = [].
Proof.
  apply (@main_with_set_flag_queues_nothing
           demo_world (namespace_with_config_file "persistent") "persistent" (PBool true) []).
  - unfold REFUSED_FLAGS. right. left. reflexivity.
  - reflexivity.
  - reflexivity.
Defined.

(** With [elevate] set, the last flag tested, the document is on disk
    when the run is refused. *)
Lemma main_with_refuses_flags_after_writing_witness :
  main_with demo_world (namespace_with_config_file "elevate") []
  = (Raise (NotImplementedError "Not implemented yet"),
     snd (craft_from_config demo_world "Config.xml" []))
  /\ exists downgrade_xml,
       snd (craft_from_config demo_world "Config.xml" [])
       = [Wrote DOWNGRADE_XML_PATH downgrade_xml].
Proof.
  apply (@main_with_refuses_flags_after_writing
           demo_world (namespace_with_config_file "elevate") "Config.xml" "elevate" []
           DOWNGRADE_XML_PATH (snd (craft_from_config demo_world "Config.xml" []))).
  - reflexivity.
  - discriminate.
  - reflexivity.
  - reflexivity.
  - unfold REFUSED_FLAGS. intros f [<-|[<-|[<-|[<-|[]]]]]; eexists; reflexivity.
  - unfold REFUSED_FLAGS. do 3 right. left. reflexivity.
  - reflexivity.
Defined.

